(** * Texture sampling in the USSE shader translator

    A shallow embedding of [vita3k/shader/src/translator/texture.cpp]
    ([USSETranslatorVisitor::do_fetch_texture], [do_texture_queries] and
    [smp]) together with the properties its design document states about it.

    The translator appends SPIR-V to a builder ([m_b]) and talks to the
    operand model ([load], [store]) and to a few utility routines.  The
    builder is modelled by a chronological trace of events plus a counter
    of fresh result ids; every routine of the translation unit is a
    computation in a state-and-failure monad over that trace. *)

From stdpp Require Import base numbers option list gmap strings.

Local Open Scope Z_scope.

(** ** SPIR-V vocabulary *)

Module spv.
(** [spv::Id] is an unsigned integer; [spv::NoResult] is zero. *)
Definition Id := Z.
Definition NoResult : Id := 0.

(** The opcodes the translation unit emits through [createOp]. *)
Inductive Op :=
| OpVectorExtractDynamic
| OpVectorShuffle
| OpImageSampleImplicitLod
| OpImageSampleExplicitLod
| OpImageSampleProjImplicitLod.

(** Image operand bits of the SPIR-V specification. *)
Definition ImageOperandsLodMask : Id := 2.
Definition ImageOperandsGradMask : Id := 4.

(** Result types.  The builder hands out type ids; the model keeps the
    shape the id stands for. *)
Inductive Type_ :=
| TypeFloat (width : Z)
| TypeVector (component : Type_) (count : Z).

(** Instructions appended to the current block. *)
Inductive Inst :=
| InstLoad (result pointer : Id)
| InstOp (result : Id) (op : Op) (type : Type_) (operands : list Id)
| InstCompositeConstruct (result : Id) (type : Type_) (constituents : list Id).

(** Constants; a float constant is kept by its IEEE-754 bit pattern. *)
Inductive Constant :=
| IntConstant (value : Z)
| FloatConstant (bits : Z).
End spv.

#[global] Instance spv_Op_eq_dec : EqDecision spv.Op.
Proof. solve_decision. Defined.

(** ** USSE types *)

(** Modelled from the spec: [enum class DataType] is declared in
    [shader/usse_types.h], which is not among the sources.  The translation
    unit names [F32], [F16], [C10] and [UNK]; the remaining enumerators are
    the integer kinds [is_integer_data_type] answers for. *)
Inductive DataType :=
| INT8 | INT16 | INT32
| C10 | F16 | F32
| UINT8 | UINT16 | UINT32
| UNK.

#[global] Instance DataType_eq_dec : EqDecision DataType.
Proof. solve_decision. Defined.

(** Modelled from the spec: [is_integer_data_type] is declared with
    [DataType]; it holds of the integer kinds and of nothing else. *)
Definition is_integer_data_type (t : DataType) : bool :=
  match t with
  | INT8 | INT16 | INT32 | UINT8 | UINT16 | UINT32 => true
  | C10 | F16 | F32 | UNK => false
  end.

(** Modelled from the spec: the register banks of [shader/usse_types.h].
    The translation unit names [PRIMATTR] and [TEMP]. *)
Inductive RegisterBank :=
| TEMP | PRIMATTR | OUTPUT | SECATTR | FPINTERNAL | SPECIAL | GLOBAL
| FPCONSTANT | IMMEDIATE | INDEX | INDEXED1 | INDEXED2 | PREDICATE | INVALID.

(** Modelled from the spec: swizzle channels; [SWIZZLE_CHANNEL_4_DEFAULT]
    is the identity selection of the four lanes. *)
Inductive SwizzleChannel := ch_X | ch_Y | ch_Z | ch_W | ch_UNDEFINED.

Definition Swizzle4 : Type :=
  SwizzleChannel * SwizzleChannel * SwizzleChannel * SwizzleChannel.

Definition SWIZZLE_CHANNEL_4_DEFAULT : Swizzle4 := (ch_X, ch_Y, ch_Z, ch_W).

Module Operand.
(** The members of [struct Operand] the translation unit reads or writes. *)
Record t := mk {
  num : Z;
  bank : RegisterBank;
  type : DataType;
  swizzle : Swizzle4
}.

Definition set_num (o : t) (n : Z) : t := mk n (bank o) (type o) (swizzle o).
Definition set_bank (o : t) (b : RegisterBank) : t := mk (num o) b (type o) (swizzle o).
Definition set_type (o : t) (d : DataType) : t := mk (num o) (bank o) d (swizzle o).
Definition set_swizzle (o : t) (w : Swizzle4) : t := mk (num o) (bank o) (type o) w.
End Operand.

(** [using Coord = std::pair<spv::Id, int>]: the second member holds a
    [DataType] enumerator cast to [int]; the casts back and forth are the
    identity on enumerators, so the model stores the enumerator. *)
Definition Coord : Type := spv.Id * DataType.

Module SamplerInfo.
Record t := mk {
  id : spv.Id;
  component_type : DataType;
  component_count : Z
}.
End SamplerInfo.

Module TextureQuery.
(** [NonDependentTextureQueryCallInfo]; [store_type] is an [int] holding
    a [DataType] enumerator, stored here as the enumerator. *)
Record t := mk {
  store_type : DataType;
  component_type : DataType;
  prod_pos : Z;
  coord : Coord;
  sampler : spv.Id;
  dest_offset : Z;
  component_count : Z
}.
End TextureQuery.

(** The decoded fields [smp] is called with, in the order of its
    parameters.  [Imm1], [Imm2] and [Imm7] are [uint8_t]. *)
Module Smp.
Record t := mk {
  pred : Z;
  skipinv : Z;
  nosched : Z;
  syncstart : Z;
  minpack : Z;
  src0_ext : Z;
  src1_ext : Z;
  src2_ext : Z;
  fconv_type : Z;
  mask_count : Z;
  dim : Z;
  lod_mode : Z;
  dest_use_pa : bool;
  sb_mode : Z;
  src0_type : Z;
  src0_bank : Z;
  drc_sel : Z;
  src1_bank : Z;
  src2_bank : Z;
  dest_n : Z;
  src0_n : Z;
  src1_n : Z;
  src2_n : Z
}.

Definition set_sb_mode (a : t) (sb : Z) : t :=
  mk (pred a) (skipinv a) (nosched a) (syncstart a) (minpack a)
     (src0_ext a) (src1_ext a) (src2_ext a) (fconv_type a) (mask_count a)
     (dim a) (lod_mode a) (dest_use_pa a) sb (src0_type a) (src0_bank a)
     (drc_sel a) (src1_bank a) (src2_bank a) (dest_n a) (src0_n a)
     (src1_n a) (src2_n a).
End Smp.

(** ** The trace *)

(** What [LOG_DISASM] is given in [smp]. *)
Record DisasmLine := {
  dl_instr : Z;
  dl_pred : Z;
  dl_dim : Z;
  dl_dest : Operand.t;
  dl_src0 : Operand.t;
  dl_coord_mask : Z;
  dl_src1 : Operand.t;
  dl_src2 : option Operand.t
}.

Inductive Event :=
| EInst (i : spv.Inst)
| EConstant (result : spv.Id) (c : spv.Constant)
| ESetLine (pc : Z)
| ELoad (op : Operand.t) (mask offset : Z) (result : spv.Id)
| EStore (op : Operand.t) (value : spv.Id) (mask : Z)
| EUnpackOne (source : spv.Id) (type : DataType) (result : spv.Id)
| EConvertToInt (source : spv.Id) (type : DataType) (normal : bool) (result : spv.Id)
| ELogError (message : string) (arguments : list Z)
| ELogDisasm (line : DisasmLine).

(** The state every routine threads: the next fresh result id of the
    builder and the events so far, newest first. *)
Record TState := { next_id : spv.Id; trace : list Event }.

Definition push (e : Event) (s : TState) : TState :=
  {| next_id := next_id s; trace := e :: trace s |}.

Definition bump (s : TState) : TState :=
  {| next_id := next_id s + 1; trace := trace s |}.

(** ** The monad *)

Inductive Failure :=
| AssertionFailed      (* an [assert] of the source does not hold *)
| UndefinedBehaviour.  (* an array read or a shift outside its range *)

Inductive Result (A : Type) :=
| Ok (a : A) (s : TState)
| Fail (f : Failure).
Arguments Ok {A} a s.
Arguments Fail {A} f.

Definition M (A : Type) : Type := TState -> Result A.

Definition ret {A} (a : A) : M A := fun s => Ok a s.

Definition bind {A B} (m : M A) (k : A -> M B) : M B :=
  fun s => match m s with
           | Ok a s' => k a s'
           | Fail f => Fail f
           end.

Definition fail {A} (f : Failure) : M A := fun _ => Fail f.

Declare Scope tr_scope.
Delimit Scope tr_scope with tr.
Notation "x <- m ;; k" := (bind m (fun x => k))
  (at level 100, m at next level, right associativity) : tr_scope.
Notation "m ;; k" := (bind m (fun _ => k))
  (at level 100, right associativity) : tr_scope.

Definition emit (e : Event) : M unit := fun s => Ok tt (push e s).

Definition fresh : M spv.Id := fun s => Ok (next_id s) (bump s).

Definition get_state : M TState := fun s => Ok s s.

(** [LOG_ERROR]. *)
Definition LOG_ERROR (message : string) (arguments : list Z) : M unit :=
  emit (ELogError message arguments).

(** ** The builder, as far as the translation unit calls it *)

Definition type_f32 : spv.Type_ := spv.TypeFloat 32.
Definition makeVectorType (component : spv.Type_) (count : Z) : spv.Type_ :=
  spv.TypeVector component count.
Definition type_f32_v (n : Z) : spv.Type_ := makeVectorType type_f32 n.

Definition createLoad (pointer : spv.Id) : M spv.Id :=
  (r <- fresh ;; emit (EInst (spv.InstLoad r pointer)) ;; ret r)%tr.

Definition createOp (op : spv.Op) (type : spv.Type_) (operands : list spv.Id) : M spv.Id :=
  (r <- fresh ;; emit (EInst (spv.InstOp r op type operands)) ;; ret r)%tr.

Definition createCompositeConstruct (type : spv.Type_) (parts : list spv.Id) : M spv.Id :=
  (r <- fresh ;; emit (EInst (spv.InstCompositeConstruct r type parts)) ;; ret r)%tr.

Definition makeIntConstant (v : Z) : M spv.Id :=
  (r <- fresh ;; emit (EConstant r (spv.IntConstant v)) ;; ret r)%tr.

(** The argument is the bit pattern of the float; [0.0f] is [0]. *)
Definition makeFloatConstant (bits : Z) : M spv.Id :=
  (r <- fresh ;; emit (EConstant r (spv.FloatConstant bits)) ;; ret r)%tr.

Definition setLine (pc : Z) : M unit := emit (ESetLine pc).

(** ** Collaborators outside the translation unit

    The operand model, the decoder helpers, the packing utilities and the
    type queries of the builder live in other files.  Their calls are
    recorded in the trace; what they answer is a parameter of the model. *)
Record Collaborators := {
  (** a default-constructed [Operand] *)
  default_operand : Operand.t;
  (** [decode_src0 (operand, n, bank, ext, is_double_regs, reg_bits, is_second_program)] *)
  decode_src0 : Operand.t -> Z -> Z -> Z -> bool -> Z -> bool -> Operand.t;
  decode_src12 : Operand.t -> Z -> Z -> Z -> bool -> Z -> bool -> Operand.t;
  (** the id [load (operand, mask, offset)] returns *)
  load_result : TState -> Operand.t -> Z -> Z -> spv.Id;
  (** the id [utils::unpack_one] returns *)
  unpack_one_result : TState -> spv.Id -> DataType -> spv.Id;
  (** the id [utils::convert_to_int] returns *)
  convert_to_int_result : TState -> spv.Id -> DataType -> bool -> spv.Id;
  (** [m_b.getNumComponents], [m_b.isPointer] *)
  getNumComponents : TState -> spv.Id -> Z;
  isPointer : TState -> spv.Id -> bool;
  (** [m_b.getTypeClass (m_b.getContainedTypeId (m_b.getTypeId id)) == spv::OpTypeFloat] *)
  hasFloatComponents : TState -> spv.Id -> bool
}.

(** The members of the visitor the translation unit reads. *)
Record Visitor := {
  m_second_program : bool;
  m_instr : Z;
  cur_pc : Z;
  samplers : gmap Z SamplerInfo.t
}.

(** ** The translation unit *)

Section Translator.
Context (env : Collaborators) (v : Visitor).

Local Open Scope tr_scope.

(** [load] and [store] of the operand model ([load]'s third argument
    defaults to 0). *)
Definition load (op : Operand.t) (mask offset : Z) : M spv.Id :=
  fun s => let r := load_result env s op mask offset in
           Ok r (push (ELoad op mask offset r) s).

Definition store (op : Operand.t) (value : spv.Id) (mask : Z) : M unit :=
  emit (EStore op value mask).

Definition unpack_one (source : spv.Id) (type : DataType) : M spv.Id :=
  fun s => let r := unpack_one_result env s source type in
           Ok r (push (EUnpackOne source type r) s).

Definition convert_to_int (source : spv.Id) (type : DataType) (normal : bool) : M spv.Id :=
  fun s => let r := convert_to_int_result env s source type normal in
           Ok r (push (EConvertToInt source type normal r) s).

(** The [assert] of [do_fetch_texture], taken as checked: a coordinate
    whose components are not floats stops the translation. *)
Definition assert_float_components (c : spv.Id) : M unit :=
  fun s => if hasFloatComponents env s c then Ok tt s else Fail AssertionFailed.

(** *** [do_fetch_texture] *)

(** Lines 35-49: bring the coordinate to a loaded float value. *)
Definition do_fetch_texture_coord (coord : Coord) : M spv.Id :=
  let coord_id := coord.1 in
  coord_id <-
    (if decide (coord.2 ≠ F32) then
       l <- createLoad coord_id ;;
       zero <- makeIntConstant 0 ;;
       coord_id <- createOp spv.OpVectorExtractDynamic type_f32 [l; zero] ;;
       coord_id <- unpack_one coord_id coord.2 ;;
       s <- get_state ;;
       (* Shuffle if number of components is larger than 2 *)
       if 2 <? getNumComponents env s coord_id
       then createOp spv.OpVectorShuffle (makeVectorType type_f32 2)
              [coord_id; coord_id; 0; 1]
       else ret coord_id
     else ret coord_id) ;;
  s <- get_state ;;
  if isPointer env s coord_id then createLoad coord_id else ret coord_id.

(** Lines 53-66: the sampling instruction. *)
Definition do_fetch_texture_sample
    (tex coord_id : spv.Id) (lod_mode : Z) (extra1 extra2 : spv.Id) : M spv.Id :=
  if extra1 =? spv.NoResult then
    if lod_mode =? 4 then
      t <- createLoad tex ;;
      createOp spv.OpImageSampleProjImplicitLod (type_f32_v 4) [t; coord_id]
    else
      t <- createLoad tex ;;
      createOp spv.OpImageSampleImplicitLod (type_f32_v 4) [t; coord_id]
  else
    if lod_mode =? 2 then
      t <- createLoad tex ;;
      createOp spv.OpImageSampleExplicitLod (type_f32_v 4)
        [t; coord_id; spv.ImageOperandsLodMask; extra1]
    else if lod_mode =? 3 then
      t <- createLoad tex ;;
      createOp spv.OpImageSampleExplicitLod (type_f32_v 4)
        [t; coord_id; spv.ImageOperandsGradMask; extra1; extra2]
    else ret spv.NoResult.

Definition do_fetch_texture
    (tex : spv.Id) (coord : Coord) (dest_type : DataType) (lod_mode : Z)
    (extra1 extra2 : spv.Id) : M spv.Id :=
  coord_id <- do_fetch_texture_coord coord ;;
  assert_float_components coord_id ;;
  image_sample <- do_fetch_texture_sample tex coord_id lod_mode extra1 extra2 ;;
  if is_integer_data_type dest_type
  then convert_to_int image_sample dest_type true
  else ret image_sample.

(** [const Imm4 mask = (1U << component_count) - 1]: a 32-bit unsigned
    shift, defined for counts 0..31, narrowed to [uint8_t]. *)
Definition component_mask (component_count : Z) : M Z :=
  if (0 <=? component_count) && (component_count <? 32)
  then ret ((((1 ≪ component_count) - 1) `mod` 2 ^ 32) `mod` 2 ^ 8)
  else fail UndefinedBehaviour.

(** *** [do_texture_queries] *)

(** The body of the loop for one query; [store_op] lives across the
    iterations. *)
Definition do_texture_query (store_op : Operand.t) (texture_query : TextureQuery.t)
    : M Operand.t :=
  let store_op := Operand.set_type store_op (TextureQuery.store_type texture_query) in
  let store_op :=
    if decide (Operand.type store_op = UNK)
    then (* get the type from the hint *)
      Operand.set_type store_op (TextureQuery.component_type texture_query)
    else store_op in
  let proj := 0 <=? TextureQuery.prod_pos texture_query in
  let coord_inst := TextureQuery.coord texture_query in
  r <- (if 0 <=? TextureQuery.prod_pos texture_query then
          texture_coord <- createLoad (TextureQuery.coord texture_query).1 ;;
          c <- createOp spv.OpVectorShuffle (type_f32_v 3)
                 [texture_coord; texture_coord; 0; 1;
                  TextureQuery.prod_pos texture_query] ;;
          ret ((c, coord_inst.2), true)
        else ret (coord_inst, proj)) ;;
  let coord_inst := r.1 in
  let proj := r.2 in
  fetch_result <- do_fetch_texture (TextureQuery.sampler texture_query) coord_inst
                    (Operand.type store_op) (if proj then 4 else 0)
                    0 spv.NoResult ;;
  let store_op := Operand.set_num store_op (TextureQuery.dest_offset texture_query) in
  mask <- component_mask (TextureQuery.component_count texture_query) ;;
  store store_op fetch_result mask ;;
  ret store_op.

Fixpoint do_texture_queries_from (store_op : Operand.t)
    (texture_queries : list TextureQuery.t) : M unit :=
  match texture_queries with
  | [] => ret tt
  | texture_query :: rest =>
      store_op <- do_texture_query store_op texture_query ;;
      do_texture_queries_from store_op rest
  end.

Definition do_texture_queries (texture_queries : list TextureQuery.t) : M unit :=
  let store_op :=
    Operand.set_swizzle (Operand.set_bank (default_operand env) PRIMATTR)
      SWIZZLE_CHANNEL_4_DEFAULT in
  do_texture_queries_from store_op texture_queries.

(** *** [smp] *)

(** [uint8_t] arithmetic wraps. *)
Definition u8 (z : Z) : Z := z `mod` 256.

(** [constexpr DataType tb_dest_fmt[]]; reading past its four entries is
    undefined. *)
Definition tb_dest_fmt : list DataType := [F32; UNK; F16; F32].

Definition array_read {A} (table : list A) (i : Z) : M A :=
  match (if 0 <=? i then table !! Z.to_nat i else None) with
  | Some x => ret x
  | None => fail UndefinedBehaviour
  end.

(** Lines 134-142: the two source operands decoded up front. *)
Definition smp_src0 (a : Smp.t) : Operand.t :=
  let src0 := decode_src0 env (default_operand env) (Smp.src0_n a) (Smp.src0_bank a)
                (Smp.src0_ext a) true 8 (m_second_program v) in
  let src0 := Operand.set_type src0
                (if Smp.src0_type a =? 0 then F32
                 else if Smp.src0_type a =? 1 then F16 else C10) in
  Operand.set_swizzle src0 SWIZZLE_CHANNEL_4_DEFAULT.

Definition smp_src1 (a : Smp.t) : Operand.t :=
  let src1 := decode_src12 env (default_operand env) (Smp.src1_n a) (Smp.src1_bank a)
                (Smp.src1_ext a) true 8 (m_second_program v) in
  Operand.set_swizzle src1 SWIZZLE_CHANNEL_4_DEFAULT.

(** Lines 143 and 159-165: the destination, [fmt] being
    [tb_dest_fmt[fconv_type]]. *)
Definition smp_dest (a : Smp.t) (sampler : SamplerInfo.t) (fmt : DataType) : Operand.t :=
  let dest := Operand.set_swizzle (default_operand env) SWIZZLE_CHANNEL_4_DEFAULT in
  let dest := Operand.set_bank dest (if Smp.dest_use_pa a then PRIMATTR else TEMP) in
  let dest := Operand.set_num dest (Smp.dest_n a) in
  let dest := Operand.set_type dest fmt in
  if decide (Operand.type dest = UNK)
  then Operand.set_type dest (SamplerInfo.component_type sampler)
  else dest.

(** Lines 170-175. *)
Definition smp_coord_mask (dim : Z) : Z :=
  if dim =? 3 then 7 (* 0b0111 *)
  else if dim =? 1 then 1 (* 0b0001 *)
  else 3 (* 0b0011 *).

(** Lines 177-178: what the disassembly line is built from; [src2] is
    still default-constructed there. *)
Definition smp_disasm (a : Smp.t) (dest : Operand.t) (dim coord_mask : Z) : DisasmLine :=
  {| dl_instr := m_instr v;
     dl_pred := Smp.pred a;
     dl_dim := dim;
     dl_dest := dest;
     dl_src0 := smp_src0 a;
     dl_coord_mask := coord_mask;
     dl_src1 := smp_src1 a;
     dl_src2 := if Smp.lod_mode a =? 0 then None else Some (default_operand env) |}.

(** Lines 191-195: a line's coordinate gets a zero Y; the result is the
    coordinate and the dimensionality to go on with. *)
Definition smp_coord (coord : spv.Id) (dim : Z) : M (spv.Id * Z) :=
  if dim =? 1 then
    zero <- makeFloatConstant 0 ;;
    coord <- createCompositeConstruct (makeVectorType (spv.TypeFloat 32) 2)
               [coord; zero] ;;
    ret (coord, 2)
  else ret (coord, dim).

(** Lines 203-204. *)
Definition smp_src2 (a : Smp.t) : Operand.t :=
  let src2 := decode_src12 env (default_operand env) (Smp.src2_n a) (Smp.src2_bank a)
                (Smp.src2_ext a) true 8 (m_second_program v) in
  Operand.set_type src2 (Operand.type (smp_src0 a)).

(** Lines 197-226: [(extra1, extra2)]. *)
Definition smp_extras (a : Smp.t) (dim : Z) : M (spv.Id * spv.Id) :=
  (* Either LOD number or ddx *)
  let extra1 := spv.NoResult in
  (* ddy *)
  let extra2 := spv.NoResult in
  if negb (Smp.lod_mode a =? 0) then
    let src2 := smp_src2 a in
    match Smp.lod_mode a with
    | 2 =>
        extra1 <- load src2 1 0 ;;
        ret (extra1, extra2)
    | 3 =>
        match dim with
        | 2 =>
            extra1 <- load src2 3 (* 0b0011 *) 0 ;;
            extra2 <- load src2 12 (* 0b1100 *) 0 ;;
            ret (extra1, extra2)
        | 3 =>
            extra1 <- load src2 7 (* 0b0111 *) 0 ;;
            extra2 <- load src2 7 (* 0b0111 *) 1 ;;
            ret (extra1, extra2)
        | _ => ret (extra1, extra2)
        end
    | _ => ret (extra1, extra2)
    end
  else ret (extra1, extra2).

(** Lines 230-247. *)
Definition smp_store (a : Smp.t) (sampler : SamplerInfo.t) (dest : Operand.t)
    (result : spv.Id) : M bool :=
  dest_mask <- component_mask (SamplerInfo.component_count sampler) ;;
  match Smp.sb_mode a with
  | 0 | 1 => store dest result dest_mask
  | 3 =>
      (* TODO: figure out what to fill here *)
      store dest result dest_mask
  | _ => LOG_ERROR "Unsupported sb_mode: {}" [Smp.sb_mode a]
  end ;;
  ret true.

Definition smp (a : Smp.t) : M bool :=
  (* LOD mode: none, bias, replace, gradient *)
  if negb (Smp.lod_mode a =? 0) && negb (Smp.lod_mode a =? 2)
     && negb (Smp.lod_mode a =? 3) then
    LOG_ERROR "Sampler LOD replace not implemented!" [] ;;
    ret true
  else
    let src0 := smp_src0 a in
    let src1 := smp_src1 a in
    match samplers v !! Operand.num src1 with
    | None =>
        LOG_ERROR "Can't get the sampler (sampler doesn't exist!)" [] ;;
        ret true
    | Some sampler =>
        fmt <- array_read tb_dest_fmt (Smp.fconv_type a) ;;
        let dest := smp_dest a sampler fmt in
        (* Base 0, turn it to base 1 *)
        let dim := u8 (Smp.dim a + 1) in
        let coord_mask := smp_coord_mask dim in
        emit (ELogDisasm (smp_disasm a dest dim coord_mask)) ;;
        setLine (cur_pc v) ;;
        (* Load the coord *)
        coord <- load src0 coord_mask 0 ;;
        if coord =? spv.NoResult then
          LOG_ERROR "Coord not loaded" [] ;;
          ret false
        else
          cd <- smp_coord coord dim ;;
          ex <- smp_extras a cd.2 ;;
          result <- do_fetch_texture sampler.(SamplerInfo.id) (cd.1, F32) F32
                      (Smp.lod_mode a) ex.1 ex.2 ;;
          smp_store a sampler dest result
    end.

End Translator.

(** ** Reading a trace *)

(** The instructions of a trace, newest first. *)
Fixpoint instructions (t : list Event) : list spv.Inst :=
  match t with
  | [] => []
  | EInst i :: t => i :: instructions t
  | _ :: t => instructions t
  end.

Definition is_image_sample (op : spv.Op) : bool :=
  match op with
  | spv.OpImageSampleImplicitLod
  | spv.OpImageSampleExplicitLod
  | spv.OpImageSampleProjImplicitLod => true
  | _ => false
  end.

(** The sampling instructions of a trace, newest first. *)
Fixpoint sample_insts (t : list Event) : list spv.Inst :=
  match t with
  | [] => []
  | EInst (spv.InstOp r op ty args) :: t =>
      if is_image_sample op then spv.InstOp r op ty args :: sample_insts t
      else sample_insts t
  | _ :: t => sample_insts t
  end.

(** The stores of a trace: destination operand, value and mask. *)
Fixpoint stores (t : list Event) : list (Operand.t * spv.Id * Z) :=
  match t with
  | [] => []
  | EStore op value mask :: t => (op, value, mask) :: stores t
  | _ :: t => stores t
  end.

(** The element types [utils::convert_to_int] was asked for. *)
Fixpoint conversions (t : list Event) : list DataType :=
  match t with
  | [] => []
  | EConvertToInt _ ty _ _ :: t => ty :: conversions t
  | _ :: t => conversions t
  end.

(** The loads of the operand model: operand, mask and offset. *)
Fixpoint loads (t : list Event) : list (Operand.t * Z * Z) :=
  match t with
  | [] => []
  | ELoad op mask offset _ :: t => (op, mask, offset) :: loads t
  | _ :: t => loads t
  end.

(** The masks of the stores of a trace, newest first. *)
Definition store_masks (t : list Event) : list Z := (stores t).*2.

(** The mask a query is stored with. *)
Definition query_mask (texture_query : TextureQuery.t) : Z :=
  (1 ≪ TextureQuery.component_count texture_query) - 1.

Definition count_1_to_4 (component_count : Z) : Prop := 1 ≤ component_count ≤ 4.

(** The element types of the destinations stored to, newest first. *)
Definition store_types (t : list Event) : list DataType :=
  map (λ st, Operand.type st.1.1) (stores t).

(** The sideband modes whose arm of the switch stores the result. *)
Definition sb_mode_stores (sb_mode : Z) : bool :=
  (sb_mode =? 0) || (sb_mode =? 1) || (sb_mode =? 3).

(** ** The state [smp] is in around its coordinate load *)

Section SmpStates.
Context (env : Collaborators) (v : Visitor).

Definition smp_dim (a : Smp.t) : Z := u8 (Smp.dim a + 1).

(** After the disassembly line and [setLine]. *)
Definition smp_before_load (a : Smp.t) (sampler : SamplerInfo.t) (fmt : DataType)
    (s : TState) : TState :=
  push (ESetLine (cur_pc v))
    (push (ELogDisasm (smp_disasm env v a (smp_dest env a sampler fmt)
                         (smp_dim a) (smp_coord_mask (smp_dim a)))) s).

(** What the coordinate load answers. *)
Definition smp_loaded_coord (a : Smp.t) (sampler : SamplerInfo.t) (fmt : DataType)
    (s : TState) : spv.Id :=
  load_result env (smp_before_load a sampler fmt s) (smp_src0 env v a)
    (smp_coord_mask (smp_dim a)) 0.

(** After the coordinate load. *)
Definition smp_after_load (a : Smp.t) (sampler : SamplerInfo.t) (fmt : DataType)
    (s : TState) : TState :=
  push (ELoad (smp_src0 env v a) (smp_coord_mask (smp_dim a)) 0
          (smp_loaded_coord a sampler fmt s))
    (smp_before_load a sampler fmt s).

(** The LOD modes the handler goes on with. *)
Definition lod_supported (lod_mode : Z) : Prop :=
  lod_mode = 0 ∨ lod_mode = 2 ∨ lod_mode = 3.

(** The sampler [src1] names is bound to [sampler]. *)
Definition sampler_bound (a : Smp.t) (sampler : SamplerInfo.t) : Prop :=
  samplers v !! Operand.num (smp_src1 env v a) = Some sampler.

(** [fconv_type] selects [fmt] in the table. *)
Definition selects_format (a : Smp.t) (fmt : DataType) : Prop :=
  0 ≤ Smp.fconv_type a ∧ tb_dest_fmt !! Z.to_nat (Smp.fconv_type a) = Some fmt.
End SmpStates.

(** ** What the fetch emitter appends *)

Section FetchVocabulary.
Context (env : Collaborators).

(** [do_fetch_texture], from the state [s1] the coordinate was prepared
    in, appends a load of the texture and the sampling instruction [op]
    whose operands are the loaded texture, the coordinate and [extras]. *)
Definition fetch_emits (tex : spv.Id) (coord : Coord) (dest_type : DataType)
    (lod_mode : Z) (extra1 extra2 : spv.Id) (s s1 : TState) (coord_id : spv.Id)
    (op : spv.Op) (extras : list spv.Id) : Prop :=
  ∃ result s',
    do_fetch_texture env tex coord dest_type lod_mode extra1 extra2 s = Ok result s'
    ∧ instructions (trace s') =
        spv.InstOp (next_id s1 + 1) op (type_f32_v 4) (next_id s1 :: coord_id :: extras)
          :: spv.InstLoad (next_id s1) tex :: instructions (trace s1)
    ∧ sample_insts (trace s') =
        spv.InstOp (next_id s1 + 1) op (type_f32_v 4) (next_id s1 :: coord_id :: extras)
          :: sample_insts (trace s).
End FetchVocabulary.

(** ** A concrete translator to run the model on *)

Definition demo_env : Collaborators := {|
  default_operand := Operand.mk 255 INVALID F32 (ch_UNDEFINED, ch_UNDEFINED, ch_UNDEFINED, ch_UNDEFINED);
  decode_src0 := fun o n bank _ _ _ _ =>
    Operand.set_bank (Operand.set_num o n) (if bank =? 0 then TEMP else PRIMATTR);
  decode_src12 := fun o n bank _ _ _ _ =>
    Operand.set_bank (Operand.set_num o n)
      (match bank with 0 => TEMP | 1 => OUTPUT | 2 => PRIMATTR | _ => SECATTR end);
  (* register 127 of any bank cannot be read *)
  load_result := fun s o mask offset =>
    if Operand.num o =? 127 then spv.NoResult
    else 1000 + 64 * Operand.num o + 16 * offset + mask;
  unpack_one_result := fun s source _ => 2000 + source;
  convert_to_int_result := fun s source _ _ => 3000 + source;
  getNumComponents := fun _ _ => 2;
  isPointer := fun _ _ => false;
  hasFloatComponents := fun _ _ => true
|}.

Definition demo_visitor : Visitor := {|
  m_second_program := false;
  m_instr := 0;
  cur_pc := 12;
  samplers := {[ 5 := SamplerInfo.mk 40 F32 4;
                 6 := SamplerInfo.mk 41 UINT8 3;
                 7 := SamplerInfo.mk 42 UNK 4 ]}
|}.

(** [smp] fields with everything but the interesting ones fixed. *)
Definition demo_smp (fconv_type dim lod_mode sb_mode src0_n src1_n : Z) : Smp.t :=
  Smp.mk 0 0 0 0 0 0 0 0 fconv_type 0 dim lod_mode false sb_mode 0 0 0 2 0 3 src0_n src1_n 9.

Definition demo_state : TState := {| next_id := 100; trace := [] |}.

(** The state a run ends in. *)
Definition run_state {A} (r : Result A) : TState :=
  match r with
  | Ok _ s => s
  | Fail _ => {| next_id := 0; trace := [] |}
  end.

Definition demo_query (store_type component_type : DataType) (prod_pos count : Z)
    : TextureQuery.t :=
  TextureQuery.mk store_type component_type prod_pos (50, F32) 40 2 count.

(** ** More readings of a trace *)

Definition inst_opcode (i : spv.Inst) : option spv.Op :=
  match i with
  | spv.InstOp _ op _ _ => Some op
  | _ => None
  end.

(** The opcodes of the sampling instructions of a trace, newest first. *)
Definition sample_ops (t : list Event) : list spv.Op :=
  omap inst_opcode (sample_insts t).

(** The calls of [utils::unpack_one]: source and element type. *)
Fixpoint unpacks (t : list Event) : list (spv.Id * DataType) :=
  match t with
  | [] => []
  | EUnpackOne source ty _ :: t => (source, ty) :: unpacks t
  | _ :: t => unpacks t
  end.

(** The messages given to [LOG_ERROR]. *)
Fixpoint errors (t : list Event) : list string :=
  match t with
  | [] => []
  | ELogError message _ :: t => message :: errors t
  | _ :: t => errors t
  end.

(** Where the stores of a trace go: bank, register number and swizzle. *)
Definition store_places (t : list Event) : list (RegisterBank * Z * Swizzle4) :=
  map (λ st, (Operand.bank st.1.1, Operand.num st.1.1, Operand.swizzle st.1.1))
    (stores t).

(** The sampling opcode of a query: projective when it names a position. *)
Definition query_sample_op (texture_query : TextureQuery.t) : spv.Op :=
  if 0 <=? TextureQuery.prod_pos texture_query
  then spv.OpImageSampleProjImplicitLod
  else spv.OpImageSampleImplicitLod.

(** The combinations of LOD operand and LOD mode the sampling stage has an
    instruction for. *)
Definition samples (lod_mode : Z) (extra1 : spv.Id) : Prop :=
  extra1 = spv.NoResult ∨ lod_mode = 2 ∨ lod_mode = 3.

(** The mask [(1U << count) - 1] leaves in a [uint8_t]. *)
Definition narrowed_mask (component_count : Z) : Z :=
  2 ^ Z.min component_count 8 - 1.

(** [smp] fields as [demo_smp] gives them, with the register number of
    source 2 free as well. *)
Definition demo_smp_src2 (dim lod_mode src2_n : Z) : Smp.t :=
  Smp.mk 0 0 0 0 0 0 0 0 0 0 dim lod_mode false 0 0 0 0 2 0 3 1 5 src2_n.

(** * The Unicorn CPU backend

    [vita3k/cpu/src/unicorn_cpu.cpp]: the members of [UnicornCPU] that
    drive the Unicorn engine.  The engine is another library: its state is
    a type parameter and its entry points are the fields of an interface.
    Reading entry points answer from the engine state and leave it alone;
    writing ones give the next state. *)

Module UnicornCPU.

(** [uc_err]; [UC_ERR_OK] is zero. *)
Definition UC_ERR_OK : Z := 0.

(** [UC_MODE_THUMB] is [1 << 4]. *)
Definition UC_MODE_THUMB : Z := 16.

(** The register ids the file names; [UC_ARM_REG_R0 + idx] and
    [UC_ARM_REG_D0 + idx] are kept as written. *)
Inductive Reg :=
| UC_ARM_REG_R0_plus (idx : Z)
| UC_ARM_REG_D0_plus (idx : Z)
| UC_ARM_REG_SP
| UC_ARM_REG_LR
| UC_ARM_REG_PC
| UC_ARM_REG_CPSR
| UC_ARM_REG_C13_C0_3
| UC_ARM_REG_FPSCR.

#[global] Instance Reg_eq_dec : EqDecision Reg.
Proof. solve_decision. Defined.

Inductive HookType := UC_HOOK_INTR | UC_HOOK_CODE | UC_HOOK_MEM_READ | UC_HOOK_MEM_WRITE.

Inductive LogLevel := TRACE | WARN | ERROR | CRITICAL.

(** [INT_SVC] and [INT_BKPT] of the file. *)
Definition INT_SVC : Z := 2.
Definition INT_BKPT : Z := 7.

(** [uint32_t] arithmetic wraps. *)
Definition u32 (z : Z) : Z := z `mod` 2 ^ 32.

(** The object and what it points to: the engine [uc], the members of
    [UnicornCPU], the members of [parent] the file touches, the page size
    of [parent->mem], and the log. *)
Record Machine (E : Type) := {
  uc : E;
  did_break : bool;
  is_inside_intr_hook : bool;
  code_hook_handle : Z;
  memory_read_hook_handle : Z;
  memory_write_hook_handle : Z;
  svc_called : bool;
  svc : Z;
  halt_instruction_pc : Z;
  page_size : Z;
  log : list (LogLevel * string)
}.
Arguments uc {E} _.
Arguments did_break {E} _.
Arguments is_inside_intr_hook {E} _.
Arguments code_hook_handle {E} _.
Arguments memory_read_hook_handle {E} _.
Arguments memory_write_hook_handle {E} _.
Arguments svc_called {E} _.
Arguments svc {E} _.
Arguments halt_instruction_pc {E} _.
Arguments page_size {E} _.
Arguments log {E} _.

(** The entry points of the engine the file calls.  An error code comes
    first in every answer.  [uc_reg_read] fills a [uint32_t] or, for the
    D registers, the two floats of a [DoubleReg], kept by their bit
    patterns.  [uc_emu_start] runs guest code and, through the hooks, the
    members of this object: it is given the whole machine. *)
Record Engine (E : Type) := {
  uc_reg_read : E → Reg → Z * Z;
  uc_reg_read_double : E → Reg → Z * (Z * Z);
  uc_reg_write : E → Reg → Z → Z * E;
  uc_reg_write_double : E → Reg → Z * Z → Z * E;
  uc_query_mode : E → Z * Z;
  uc_mem_read : E → Z → Z → Z * Z;
  uc_emu_stop : E → Z * E;
  uc_hook_add : E → HookType → Z * Z * E;
  uc_hook_del : E → Z → Z * E;
  uc_emu_start : Machine E → Z → Z → Z → Z → Z * Machine E;
  (** [save_context ().description ()], whose [CPUContext] is declared
      elsewhere: a computation on the machine that may stop at an
      assertion. *)
  describe_context : Machine E → option (Machine E)
}.
Arguments uc_reg_read {E} _.
Arguments uc_reg_read_double {E} _.
Arguments uc_reg_write {E} _.
Arguments uc_reg_write_double {E} _.
Arguments uc_query_mode {E} _.
Arguments uc_mem_read {E} _.
Arguments uc_emu_stop {E} _.
Arguments uc_hook_add {E} _.
Arguments uc_hook_del {E} _.
Arguments uc_emu_start {E} _.
Arguments describe_context {E} _.

Section Members.
Context {E : Type} (engine : Engine E).

(** A member function: it ends in a machine and a value, or stops at an
    [assert] that does not hold. *)
Definition U (A : Type) : Type := Machine E → option (A * Machine E).

Definition unit_ {A} (a : A) : U A := fun m => Some (a, m).

Definition then_ {A B} (c : U A) (k : A → U B) : U B :=
  fun m => match c m with
           | Some (a, m') => k a m'
           | None => None
           end.

Definition assert_ (b : bool) : U unit := fun m => if b then Some (tt, m) else None.

Definition update (f : Machine E → Machine E) : U unit := fun m => Some (tt, f m).

Definition read {A} (f : Machine E → A) : U A := fun m => Some (f m, m).

Local Notation "x <- c ;; k" := (then_ c (fun x => k))
  (at level 100, c at next level, right associativity).
Local Notation "c ;; k" := (then_ c (fun _ => k))
  (at level 100, right associativity).

Definition with_uc (e : E) (m : Machine E) : Machine E :=
  Build_Machine E e (did_break m) (is_inside_intr_hook m) (code_hook_handle m)
    (memory_read_hook_handle m) (memory_write_hook_handle m) (svc_called m) (svc m)
    (halt_instruction_pc m) (page_size m) (log m).

Definition with_did_break (b : bool) (m : Machine E) : Machine E :=
  Build_Machine E (uc m) b (is_inside_intr_hook m) (code_hook_handle m)
    (memory_read_hook_handle m) (memory_write_hook_handle m) (svc_called m) (svc m)
    (halt_instruction_pc m) (page_size m) (log m).

Definition with_is_inside_intr_hook (b : bool) (m : Machine E) : Machine E :=
  Build_Machine E (uc m) (did_break m) b (code_hook_handle m)
    (memory_read_hook_handle m) (memory_write_hook_handle m) (svc_called m) (svc m)
    (halt_instruction_pc m) (page_size m) (log m).

Definition with_code_hook_handle (h : Z) (m : Machine E) : Machine E :=
  Build_Machine E (uc m) (did_break m) (is_inside_intr_hook m) h
    (memory_read_hook_handle m) (memory_write_hook_handle m) (svc_called m) (svc m)
    (halt_instruction_pc m) (page_size m) (log m).

Definition with_memory_read_hook_handle (h : Z) (m : Machine E) : Machine E :=
  Build_Machine E (uc m) (did_break m) (is_inside_intr_hook m) (code_hook_handle m)
    h (memory_write_hook_handle m) (svc_called m) (svc m)
    (halt_instruction_pc m) (page_size m) (log m).

Definition with_memory_write_hook_handle (h : Z) (m : Machine E) : Machine E :=
  Build_Machine E (uc m) (did_break m) (is_inside_intr_hook m) (code_hook_handle m)
    (memory_read_hook_handle m) h (svc_called m) (svc m)
    (halt_instruction_pc m) (page_size m) (log m).

Definition with_svc_called (b : bool) (m : Machine E) : Machine E :=
  Build_Machine E (uc m) (did_break m) (is_inside_intr_hook m) (code_hook_handle m)
    (memory_read_hook_handle m) (memory_write_hook_handle m) b (svc m)
    (halt_instruction_pc m) (page_size m) (log m).

Definition with_svc (n : Z) (m : Machine E) : Machine E :=
  Build_Machine E (uc m) (did_break m) (is_inside_intr_hook m) (code_hook_handle m)
    (memory_read_hook_handle m) (memory_write_hook_handle m) (svc_called m) n
    (halt_instruction_pc m) (page_size m) (log m).

Definition with_log (line : LogLevel * string) (m : Machine E) : Machine E :=
  Build_Machine E (uc m) (did_break m) (is_inside_intr_hook m) (code_hook_handle m)
    (memory_read_hook_handle m) (memory_write_hook_handle m) (svc_called m) (svc m)
    (halt_instruction_pc m) (page_size m) (line :: log m).

Definition LOG (level : LogLevel) (message : string) : U unit :=
  update (with_log (level, message)).

(** A reading entry point, and a writing one, followed by
    [assert (err == UC_ERR_OK)]. *)
Definition checked_read {A} (f : E → Z * A) : U A :=
  r <- read (fun m => f (uc m)) ;;
  assert_ (r.1 =? UC_ERR_OK) ;;
  unit_ r.2.

Definition checked_write (f : E → Z * E) : U unit :=
  r <- read (fun m => f (uc m)) ;;
  update (with_uc r.2) ;;
  assert_ (r.1 =? UC_ERR_OK).

Definition stop : U unit :=
  LOG TRACE "UNICORN STOP" ;;
  checked_write (uc_emu_stop engine).

Definition get_pc : U Z :=
  LOG TRACE "GET PC uc_reg_read" ;;
  checked_read (fun e => uc_reg_read engine e UC_ARM_REG_PC).

Definition is_thumb_mode : U bool :=
  LOG TRACE "IS THUMB MODE uc_query" ;;
  mode <- checked_read (uc_query_mode engine) ;;
  unit_ (negb (Z.land mode UC_MODE_THUMB =? 0)).

Definition get_float_reg (idx : Z) : U Z :=
  LOG TRACE "GET FLOAT REG uc_reg_read" ;;
  let single_index := idx `div` 2 in
  value <- checked_read
             (fun e => uc_reg_read_double engine e (UC_ARM_REG_D0_plus single_index)) ;;
  unit_ (if idx `mod` 2 =? 0 then value.1 else value.2).

Definition set_float_reg (idx : Z) (val : Z) : U unit :=
  LOG TRACE "SET FLOAT REG uc_reg_write" ;;
  let single_index := idx `div` 2 in
  value <- checked_read
             (fun e => uc_reg_read_double engine e (UC_ARM_REG_D0_plus single_index)) ;;
  let value := if idx `mod` 2 =? 0 then (val, value.2) else (value.1, val) in
  checked_write
    (fun e => uc_reg_write_double engine e (UC_ARM_REG_D0_plus single_index) value).

Definition intr_hook (intno : Z) : U unit :=
  LOG TRACE "INTR HOOK" ;;
  assert_ ((intno =? INT_SVC) || (intno =? INT_BKPT)) ;;
  pc <- get_pc ;;
  update (with_is_inside_intr_hook true) ;;
  (if intno =? INT_SVC then
     thumb <- is_thumb_mode ;;
     assert_ (negb thumb) ;;
     let svc_address := u32 (pc - 4) in
     svc_instruction <- checked_read (fun e => uc_mem_read engine e svc_address 4) ;;
     thumb <- is_thumb_mode ;;
     let svc := if thumb then Z.land svc_instruction 0xff0000 ≫ 16
                else Z.land svc_instruction 0xffffff in
     update (with_svc_called true) ;;
     update (with_svc svc) ;;
     stop
   else if intno =? INT_BKPT then
     stop ;;
     update (with_did_break true)
   else unit_ tt) ;;
  update (with_is_inside_intr_hook false).

Definition log_error_details (code : Z) : U unit :=
  (fun m => match describe_context engine m with
            | Some m' => Some (tt, m')
            | None => None
            end) ;;
  LOG ERROR "Unicorn error {}. {}\n{}" ;;
  pc <- get_pc ;;
  p <- read page_size ;;
  if pc <? p then LOG CRITICAL "PC is 0x{:x}"
  else LOG WARN "Executing: {}".

Definition emu_start (begin until timeout count : Z) : U Z :=
  fun m => let r := uc_emu_start engine m begin until timeout count in Some (r.1, r.2).

(** [halt_instruction_pc <= pc && pc <= halt_instruction_pc + 4], as an
    [int]. *)
Definition at_halt (halt pc : Z) : Z :=
  if (halt <=? pc) && (pc <=? u32 (halt + 4)) then 1 else 0.

Definition execute_instructions_no_check (num : Z) : U Z :=
  LOG TRACE "GET_PC" ;;
  pc <- get_pc ;;
  LOG TRACE "IS THUMB?" ;;
  thumb_mode <- is_thumb_mode ;;
  let pc := if thumb_mode then Z.lor pc 1 else pc in
  LOG TRACE "uc_emu_start" ;;
  err <- emu_start pc (2 ^ 63) 0 num ;;
  LOG TRACE "uc_emu_start ENDED" ;;
  if negb (err =? UC_ERR_OK) then
    log_error_details err ;;
    unit_ (-1)
  else unit_ 0.

Definition run : U Z :=
  LOG TRACE "UNICORN RUN" ;;
  pc <- get_pc ;;
  LOG TRACE "IS THUMB" ;;
  thumb_mode <- is_thumb_mode ;;
  update (with_did_break false) ;;
  update (with_svc_called false) ;;
  LOG TRACE "GET PC" ;;
  pc <- get_pc ;;
  let pc := if thumb_mode then Z.lor pc 1 else pc in
  LOG TRACE "uc_emu_start" ;;
  err <- emu_start pc 0 0 0 ;;
  if negb (err =? UC_ERR_OK) then
    log_error_details err ;;
    unit_ (-1)
  else
    LOG TRACE "GET PC" ;;
    pc <- get_pc ;;
    LOG TRACE "IS THUMB" ;;
    thumb_mode <- is_thumb_mode ;;
    let pc := if thumb_mode then Z.lor pc 1 else pc in
    LOG TRACE "RETURN HALT" ;;
    halt <- read halt_instruction_pc ;;
    unit_ (at_halt halt pc).

Definition step : U Z :=
  LOG TRACE "STEP, GET PC" ;;
  pc <- get_pc ;;
  LOG TRACE "IS THUMB" ;;
  thumb_mode <- is_thumb_mode ;;
  update (with_did_break false) ;;
  update (with_svc_called false) ;;
  LOG TRACE "GET PC" ;;
  pc <- get_pc ;;
  let pc := if thumb_mode then Z.lor pc 1 else pc in
  LOG TRACE "uc_emu_start" ;;
  err <- emu_start pc 0 0 1 ;;
  if negb (err =? UC_ERR_OK) then
    log_error_details err ;;
    unit_ (-1)
  else
    LOG TRACE "GET PC" ;;
    pc <- get_pc ;;
    thumb_mode <- is_thumb_mode ;;
    let pc := if thumb_mode then Z.lor pc 1 else pc in
    LOG TRACE "RETURN HALT" ;;
    halt <- read halt_instruction_pc ;;
    unit_ (at_halt halt pc).

Definition hit_breakpoint : U bool :=
  LOG TRACE "hit_breakpoint" ;;
  read did_break.

Definition trigger_breakpoint : U unit :=
  LOG TRACE "trigger_breakpoint" ;;
  stop ;;
  update (with_did_break true).

Definition get_log_code : U bool :=
  LOG TRACE "get_log_code" ;;
  h <- read code_hook_handle ;;
  unit_ (negb (h =? 0)).

Definition get_log_mem : U bool :=
  LOG TRACE "get_log_mem" ;;
  r <- read memory_read_hook_handle ;;
  w <- read memory_write_hook_handle ;;
  unit_ (negb (r =? 0) && negb (w =? 0)).

(** [uc_hook_add (uc, &handle, type, ...)] with its [assert]; the handle is
    written by the engine. *)
Definition hook_add (set_handle : Z → Machine E → Machine E) (type : HookType) : U unit :=
  r <- read (fun m => uc_hook_add engine (uc m) type) ;;
  update (with_uc r.2) ;;
  update (set_handle r.1.2) ;;
  assert_ (r.1.1 =? UC_ERR_OK).

Definition hook_del (handle : Z) : U unit :=
  checked_write (fun e => uc_hook_del engine e handle).

Definition set_log_code (log : bool) : U unit :=
  LOG TRACE "set_log_code" ;;
  current <- get_log_code ;;
  if Bool.eqb current log then unit_ tt
  else if log then hook_add with_code_hook_handle UC_HOOK_CODE
  else
    h <- read code_hook_handle ;;
    hook_del h ;;
    update (with_code_hook_handle 0).

Definition set_log_mem (log : bool) : U unit :=
  LOG TRACE "set_log_mem" ;;
  current <- get_log_mem ;;
  if Bool.eqb current log then unit_ tt
  else if log then
    hook_add with_memory_read_hook_handle UC_HOOK_MEM_READ ;;
    hook_add with_memory_write_hook_handle UC_HOOK_MEM_WRITE
  else
    r <- read memory_read_hook_handle ;;
    hook_del r ;;
    update (with_memory_read_hook_handle 0) ;;
    w <- read memory_write_hook_handle ;;
    hook_del w ;;
    update (with_memory_write_hook_handle 0).

End Members.
End UnicornCPU.

(** ** Reading a machine *)

(** The program counter as [run] hands it to the engine: bit 0 set in
    Thumb mode. *)
Definition tagged_pc {E} (engine : UnicornCPU.Engine E) (e : E) : Z :=
  let pc := (UnicornCPU.uc_reg_read engine e UnicornCPU.UC_ARM_REG_PC).2 in
  if negb (Z.land (UnicornCPU.uc_query_mode engine e).2 UnicornCPU.UC_MODE_THUMB =? 0)
  then Z.lor pc 1 else pc.

(** The machine a member function ends in. *)
Definition end_machine {E A} (r : option (A * UnicornCPU.Machine E))
    (otherwise : UnicornCPU.Machine E) : UnicornCPU.Machine E :=
  match r with
  | Some (_, m) => m
  | None => otherwise
  end.

(** The machine [run] (first log line "UNICORN RUN") and [step] ("STEP,
    GET PC") hand to [uc_emu_start]: the log lines so far, and both flags
    cleared. *)
Definition run_start {E} (first_line : string) (m : UnicornCPU.Machine E)
    : UnicornCPU.Machine E :=
  UnicornCPU.with_log (UnicornCPU.TRACE, "uc_emu_start")
    (UnicornCPU.with_log (UnicornCPU.TRACE, "GET PC uc_reg_read")
       (UnicornCPU.with_log (UnicornCPU.TRACE, "GET PC")
          (UnicornCPU.with_svc_called false
             (UnicornCPU.with_did_break false
                (UnicornCPU.with_log (UnicornCPU.TRACE, "IS THUMB MODE uc_query")
                   (UnicornCPU.with_log (UnicornCPU.TRACE, "IS THUMB")
                      (UnicornCPU.with_log (UnicornCPU.TRACE, "GET PC uc_reg_read")
                         (UnicornCPU.with_log (UnicornCPU.TRACE, first_line) m)))))))).

(** The machine [execute_instructions_no_check] hands to [uc_emu_start]:
    the log lines so far and nothing else. *)
Definition execute_start {E} (m : UnicornCPU.Machine E) : UnicornCPU.Machine E :=
  UnicornCPU.with_log (UnicornCPU.TRACE, "uc_emu_start")
    (UnicornCPU.with_log (UnicornCPU.TRACE, "IS THUMB MODE uc_query")
       (UnicornCPU.with_log (UnicornCPU.TRACE, "IS THUMB?")
          (UnicornCPU.with_log (UnicornCPU.TRACE, "GET PC uc_reg_read")
             (UnicornCPU.with_log (UnicornCPU.TRACE, "GET_PC") m)))).

(** The engine hands out handles other than zero. *)
Definition handles_nonzero {E} (engine : UnicornCPU.Engine E) : Prop :=
  ∀ e type, (UnicornCPU.uc_hook_add engine e type).1.2 ≠ 0.

(** Both memory hooks are installed, or neither. *)
Definition memory_hooks_agree {E} (m : UnicornCPU.Machine E) : Prop :=
  (UnicornCPU.memory_read_hook_handle m =? 0)
  = (UnicornCPU.memory_write_hook_handle m =? 0).

(** ** A concrete engine to run the backend on *)

Record DemoEngine := {
  dm_pc : Z;
  dm_mode : Z;
  dm_word : Z;
  dm_doubles : Z → Z * Z;
  dm_hooks : Z;
  dm_stopped : bool
}.

Definition demo_engine : UnicornCPU.Engine DemoEngine := {|
  UnicornCPU.uc_reg_read := fun e r =>
    (0, match r with UnicornCPU.UC_ARM_REG_PC => dm_pc e | _ => 0 end);
  UnicornCPU.uc_reg_read_double := fun e r =>
    (0, match r with UnicornCPU.UC_ARM_REG_D0_plus i => dm_doubles e i | _ => (0, 0) end);
  UnicornCPU.uc_reg_write := fun e r x =>
    (0, match r with
        | UnicornCPU.UC_ARM_REG_PC =>
            Build_DemoEngine x (dm_mode e) (dm_word e) (dm_doubles e) (dm_hooks e)
              (dm_stopped e)
        | _ => e
        end);
  UnicornCPU.uc_reg_write_double := fun e r x =>
    (0, match r with
        | UnicornCPU.UC_ARM_REG_D0_plus i =>
            Build_DemoEngine (dm_pc e) (dm_mode e) (dm_word e)
              (fun j => if j =? i then x else dm_doubles e j) (dm_hooks e) (dm_stopped e)
        | _ => e
        end);
  UnicornCPU.uc_query_mode := fun e => (0, dm_mode e);
  UnicornCPU.uc_mem_read := fun e _ _ => (0, dm_word e);
  UnicornCPU.uc_emu_stop := fun e =>
    (0, Build_DemoEngine (dm_pc e) (dm_mode e) (dm_word e) (dm_doubles e) (dm_hooks e) true);
  UnicornCPU.uc_hook_add := fun e _ =>
    (0, Z.abs (dm_hooks e) + 1,
     Build_DemoEngine (dm_pc e) (dm_mode e) (dm_word e) (dm_doubles e) (dm_hooks e + 1)
       (dm_stopped e));
  UnicornCPU.uc_hook_del := fun e _ => (0, e);
  (* four bytes are executed; a count of three instructions is an error *)
  UnicornCPU.uc_emu_start := fun m begin _ _ count =>
    (if count =? 3 then 1 else 0,
     UnicornCPU.with_uc
       (Build_DemoEngine (dm_pc (UnicornCPU.uc m) + 4) (dm_mode (UnicornCPU.uc m))
          (dm_word (UnicornCPU.uc m)) (dm_doubles (UnicornCPU.uc m))
          (dm_hooks (UnicornCPU.uc m)) (dm_stopped (UnicornCPU.uc m))) m);
  UnicornCPU.describe_context := fun m => Some m
|}.

Definition demo_cpu (pc mode halt : Z) : UnicornCPU.Machine DemoEngine :=
  UnicornCPU.Build_Machine DemoEngine
    (Build_DemoEngine pc mode 0xef123456 (fun i => (10 * i, 10 * i + 1)) 0 false)
    true false 0 0 0 true 9 halt 4096 [].

(** ** The scenarios of the design document, run on the model *)

(** Scenario A: a 2-dimensional sample without LOD operand, format [F32],
    sampler of four [F32] components: one implicit-LOD sample, then one
    store with mask 0b1111. *)
Example scenario_A :
  let s' := run_state (smp demo_env demo_visitor (demo_smp 0 1 0 0 1 5) demo_state) in
  sample_insts (trace s') =
    [spv.InstOp 101 spv.OpImageSampleImplicitLod (type_f32_v 4) [100; 1067]]
  ∧ stores (trace s') = [(Operand.mk 3 TEMP F32 SWIZZLE_CHANNEL_4_DEFAULT, 101, 15)].
Proof. by vm_compute. Qed.

(** Scenario B: a line with LOD replace: the coordinate gets its zero Y,
    one scalar LOD is loaded, the sample is the explicit-LOD one. *)
Example scenario_B :
  let s' := run_state (smp demo_env demo_visitor (demo_smp 0 0 2 0 1 5) demo_state) in
  instructions (trace s') =
    [spv.InstOp 103 spv.OpImageSampleExplicitLod (type_f32_v 4)
       [102; 101; spv.ImageOperandsLodMask; 1577];
     spv.InstLoad 102 40;
     spv.InstCompositeConstruct 101 (spv.TypeVector (spv.TypeFloat 32) 2) [1065; 100]]
  ∧ (loads (trace s')).*2 = [0; 0] ∧ (loads (trace s')).*1.*2 = [1; 1].
Proof. by vm_compute. Qed.

(** Scenario D: LOD bias is reported and nothing is emitted. *)
Example scenario_D :
  smp demo_env demo_visitor (demo_smp 0 1 1 0 1 5) demo_state =
    Ok true (push (ELogError "Sampler LOD replace not implemented!" []) demo_state).
Proof. reflexivity. Qed.

(** ** Running the monad *)

Lemma bind_Ok {A B} (m : M A) (k : A -> M B) s a s' :
  m s = Ok a s' → bind m k s = k a s'.
Proof. intros H. unfold bind. by rewrite H. Qed.

Lemma bind_Ok_inv {A B} (m : M A) (k : A -> M B) s b s' :
  bind m k s = Ok b s' → ∃ a s1, m s = Ok a s1 ∧ k a s1 = Ok b s'.
Proof.
  unfold bind. destruct (m s) as [a s1|f] eqn:E; [|discriminate].
  intros H. by exists a, s1.
Qed.

Ltac run :=
  unfold LOG_ERROR, setLine, store, load, unpack_one, convert_to_int,
    createLoad, createOp, createCompositeConstruct, makeIntConstant,
    makeFloatConstant, get_state, emit, fresh, bind, ret, fail;
  simpl.

Section SmpFacts.
Context (env : Collaborators) (v : Visitor).

Lemma lod_supported_check lod_mode :
  lod_supported lod_mode →
  negb (lod_mode =? 0) && negb (lod_mode =? 2) && negb (lod_mode =? 3) = false.
Proof. by intros [-> | [-> | ->]]. Qed.

Lemma selects_format_read a fmt s :
  selects_format a fmt →
  array_read tb_dest_fmt (Smp.fconv_type a) s = Ok fmt s.
Proof.
  intros [Hpos Hfmt]. unfold array_read.
  assert ((0 <=? Smp.fconv_type a) = true) as -> by lia.
  by rewrite Hfmt.
Qed.

(** An instruction with a supported LOD mode, a bound sampler and a
    format in the table runs up to its coordinate load. *)
Lemma smp_runs_to_coord_load a sampler fmt s :
  lod_supported (Smp.lod_mode a) →
  sampler_bound env v a sampler →
  selects_format a fmt →
  smp env v a s =
    if smp_loaded_coord env v a sampler fmt s =? spv.NoResult then
      Ok false (push (ELogError "Coord not loaded" []) (smp_after_load env v a sampler fmt s))
    else
      (cd <- smp_coord (smp_loaded_coord env v a sampler fmt s) (smp_dim a) ;;
       ex <- smp_extras env v a cd.2 ;;
       result <- do_fetch_texture env sampler.(SamplerInfo.id) (cd.1, F32) F32
                   (Smp.lod_mode a) ex.1 ex.2 ;;
       smp_store a sampler (smp_dest env a sampler fmt) result)%tr
      (smp_after_load env v a sampler fmt s).
Proof.
  intros Hlod Hbound Hfmt. unfold smp.
  rewrite (lod_supported_check _ Hlod).
  unfold sampler_bound in Hbound. rewrite Hbound.
  rewrite (bind_Ok _ _ _ _ _ (selects_format_read a fmt s Hfmt)).
  unfold smp_loaded_coord, smp_after_load, smp_before_load, smp_dim.
  run.
  by destruct (load_result env _ _ _ _ =? spv.NoResult).
Qed.
End SmpFacts.

(** ** Error paths of [smp] *)

(** C3.  An SMP instruction whose LOD mode is BIAS (1) is reported with
    [LOG_ERROR] and translated to nothing: the handler returns [true], the
    only new event is the error, no instruction is appended and no fresh id
    is consumed. *)
Theorem smp_bias_lod_reported_noop (env : Collaborators) (v : Visitor) (a : Smp.t) (s : TState) :
  Smp.lod_mode a = 1 →
  ∃ s', smp env v a s = Ok true s'
        ∧ trace s' = ELogError "Sampler LOD replace not implemented!" [] :: trace s
        ∧ next_id s' = next_id s
        ∧ instructions (trace s') = instructions (trace s)
        ∧ stores (trace s') = stores (trace s).
Proof.
  intros Hlod. unfold smp. rewrite Hlod. simpl.
  eexists. split; [reflexivity|]. by simpl.
Qed.

Lemma smp_bias_lod_reported_noop_witness :
  ∃ s', smp demo_env demo_visitor (demo_smp 0 1 1 0 1 5) demo_state = Ok true s'
        ∧ trace s' = ELogError "Sampler LOD replace not implemented!" [] :: trace demo_state
        ∧ next_id s' = next_id demo_state
        ∧ instructions (trace s') = instructions (trace demo_state)
        ∧ stores (trace s') = stores (trace demo_state).
Proof.
  apply (smp_bias_lod_reported_noop demo_env demo_visitor (demo_smp 0 1 1 0 1 5) demo_state).
  reflexivity.
Defined.

(** C4.  An SMP instruction whose sampler index (the register number of
    source 1) is not in the sampler table logs one error and returns [true]
    with nothing else done: no instruction appended, no store.  The LOD
    check comes first in the handler, so the error logged is the one about
    the sampler whenever the LOD mode is a supported one. *)
Theorem smp_unbound_sampler_emits_nothing (env : Collaborators) (v : Visitor) (a : Smp.t) (s : TState) :
  samplers v !! Operand.num (smp_src1 env v a) = None →
  ∃ message s',
    smp env v a s = Ok true s'
    ∧ trace s' = ELogError message [] :: trace s
    ∧ next_id s' = next_id s
    ∧ instructions (trace s') = instructions (trace s)
    ∧ stores (trace s') = stores (trace s)
    ∧ (lod_supported (Smp.lod_mode a) →
       message = "Can't get the sampler (sampler doesn't exist!)").
Proof.
  intros Hmiss. unfold smp.
  destruct (negb (Smp.lod_mode a =? 0) && negb (Smp.lod_mode a =? 2)
            && negb (Smp.lod_mode a =? 3)) eqn:Hcheck.
  - eexists _, _. split; [reflexivity|]. simpl. repeat split.
    intros Hlod. apply lod_supported_check in Hlod. congruence.
  - rewrite Hmiss. eexists _, _. split; [reflexivity|]. simpl. by repeat split.
Qed.

Lemma smp_unbound_sampler_emits_nothing_witness :
  ∃ message s',
    smp demo_env demo_visitor (demo_smp 0 1 0 0 1 9) demo_state = Ok true s'
    ∧ trace s' = ELogError message [] :: trace demo_state
    ∧ next_id s' = next_id demo_state
    ∧ instructions (trace s') = instructions (trace demo_state)
    ∧ stores (trace s') = stores (trace demo_state)
    ∧ (lod_supported (Smp.lod_mode (demo_smp 0 1 0 0 1 9)) →
       message = "Can't get the sampler (sampler doesn't exist!)").
Proof.
  apply (smp_unbound_sampler_emits_nothing demo_env demo_visitor (demo_smp 0 1 0 0 1 9) demo_state).
  vm_compute. reflexivity.
Defined.

(** C9.  When the coordinate load answers [spv::NoResult], the handler
    logs the error and stops: after the load the only new event is the
    error, so no sampling instruction is emitted and nothing is stored to
    the destination.  The handler returns to its caller, with [false]. *)
Theorem smp_coord_not_loaded_stops (env : Collaborators) (v : Visitor) (a : Smp.t)
    (sampler : SamplerInfo.t) (fmt : DataType) (s : TState) :
  lod_supported (Smp.lod_mode a) →
  sampler_bound env v a sampler →
  selects_format a fmt →
  smp_loaded_coord env v a sampler fmt s = spv.NoResult →
  ∃ s', smp env v a s = Ok false s'
        ∧ trace s' = ELogError "Coord not loaded" [] :: trace (smp_after_load env v a sampler fmt s)
        ∧ next_id s' = next_id s
        ∧ instructions (trace s') = instructions (trace s)
        ∧ sample_insts (trace s') = sample_insts (trace s)
        ∧ stores (trace s') = stores (trace s).
Proof.
  intros Hlod Hbound Hfmt Hcoord.
  rewrite (smp_runs_to_coord_load env v a sampler fmt s Hlod Hbound Hfmt).
  rewrite Hcoord. simpl.
  eexists. split; [reflexivity|]. by simpl.
Qed.

Lemma smp_coord_not_loaded_stops_witness :
  ∃ s', smp demo_env demo_visitor (demo_smp 0 1 0 0 127 5) demo_state = Ok false s'
        ∧ trace s' = ELogError "Coord not loaded" []
                       :: trace (smp_after_load demo_env demo_visitor (demo_smp 0 1 0 0 127 5)
                                   (SamplerInfo.mk 40 F32 4) F32 demo_state)
        ∧ next_id s' = next_id demo_state
        ∧ instructions (trace s') = instructions (trace demo_state)
        ∧ sample_insts (trace s') = sample_insts (trace demo_state)
        ∧ stores (trace s') = stores (trace demo_state).
Proof.
  apply (smp_coord_not_loaded_stops demo_env demo_visitor (demo_smp 0 1 0 0 127 5)
           (SamplerInfo.mk 40 F32 4) F32 demo_state).
  - left. reflexivity.
  - vm_compute. reflexivity.
  - split; [simpl; lia | reflexivity].
  - reflexivity.
Defined.

(** ** The fetch emitter *)

Section FetchFacts.
Context (env : Collaborators).

(** Preparing the coordinate always succeeds, and appends neither a
    sampling instruction, nor a store, nor an integer conversion. *)
Lemma do_fetch_texture_coord_quiet coord s :
  ∃ coord_id s1,
    do_fetch_texture_coord env coord s = Ok coord_id s1
    ∧ sample_insts (trace s1) = sample_insts (trace s)
    ∧ stores (trace s1) = stores (trace s)
    ∧ conversions (trace s1) = conversions (trace s).
Proof.
  unfold do_fetch_texture_coord. destruct coord as [c ty]. simpl.
  destruct (decide (ty ≠ F32)) as [Hty|Hty]; run.
  - destruct (2 <? getNumComponents env _ _); simpl;
      destruct (isPointer env _ _); simpl; eexists _, _; by repeat split.
  - destruct (isPointer env _ _); simpl; eexists _, _; by repeat split.
Qed.

(** A coordinate that arrives as a loaded float value is used as it is. *)
Lemma do_fetch_texture_coord_f32 c s :
  isPointer env s c = false →
  do_fetch_texture_coord env (c, F32) s = Ok c s.
Proof.
  intros Hptr. unfold do_fetch_texture_coord. simpl.
  destruct (decide (F32 ≠ F32)) as [Hne|_]; [by destruct Hne|].
  run. by rewrite Hptr.
Qed.


Ltac finish_fetch dest_type Hsample :=
  run; destruct (is_integer_data_type dest_type); simpl; eexists _, _;
  (split; [reflexivity|]); simpl; by rewrite Hsample.

Section Prepared.
Context (coord : Coord) (s s1 : TState) (coord_id : spv.Id).
Hypothesis Hcoord : do_fetch_texture_coord env coord s = Ok coord_id s1.
Hypothesis Hfloat : hasFloatComponents env s1 coord_id = true.

Lemma do_fetch_texture_prepared tex dest_type lod_mode extra1 extra2 :
  do_fetch_texture env tex coord dest_type lod_mode extra1 extra2 s =
    (image_sample <- do_fetch_texture_sample tex coord_id lod_mode extra1 extra2 ;;
     if is_integer_data_type dest_type
     then convert_to_int env image_sample dest_type true
     else ret image_sample)%tr s1.
Proof.
  unfold do_fetch_texture. rewrite (bind_Ok _ _ _ _ _ Hcoord).
  unfold bind at 1, assert_float_components. by rewrite Hfloat.
Qed.

Lemma sample_insts_prepared : sample_insts (trace s1) = sample_insts (trace s).
Proof.
  destruct (do_fetch_texture_coord_quiet coord s) as (c & s2 & Hc & Hsample & _).
  rewrite Hcoord in Hc. by injection Hc as <- <-.
Qed.

Lemma fetch_proj_implicit tex dest_type lod_mode extra1 extra2 :
  extra1 = spv.NoResult → lod_mode = 4 →
  fetch_emits env tex coord dest_type lod_mode extra1 extra2 s s1 coord_id
    spv.OpImageSampleProjImplicitLod [].
Proof.
  intros -> ->. unfold fetch_emits. rewrite do_fetch_texture_prepared.
  pose proof sample_insts_prepared as Hsample.
  unfold do_fetch_texture_sample. simpl. finish_fetch dest_type Hsample.
Qed.

Lemma fetch_implicit tex dest_type lod_mode extra1 extra2 :
  extra1 = spv.NoResult → lod_mode ≠ 4 →
  fetch_emits env tex coord dest_type lod_mode extra1 extra2 s s1 coord_id
    spv.OpImageSampleImplicitLod [].
Proof.
  intros -> Hlod. unfold fetch_emits. rewrite do_fetch_texture_prepared.
  pose proof sample_insts_prepared as Hsample.
  unfold do_fetch_texture_sample. simpl.
  apply Z.eqb_neq in Hlod. rewrite Hlod. finish_fetch dest_type Hsample.
Qed.

Lemma fetch_explicit_lod tex dest_type lod_mode extra1 extra2 :
  extra1 ≠ spv.NoResult → lod_mode = 2 →
  fetch_emits env tex coord dest_type lod_mode extra1 extra2 s s1 coord_id
    spv.OpImageSampleExplicitLod [spv.ImageOperandsLodMask; extra1].
Proof.
  intros Hextra ->. unfold fetch_emits. rewrite do_fetch_texture_prepared.
  pose proof sample_insts_prepared as Hsample.
  unfold do_fetch_texture_sample.
  apply Z.eqb_neq in Hextra. rewrite Hextra. simpl.
  finish_fetch dest_type Hsample.
Qed.

Lemma fetch_explicit_grad tex dest_type lod_mode extra1 extra2 :
  extra1 ≠ spv.NoResult → lod_mode = 3 →
  fetch_emits env tex coord dest_type lod_mode extra1 extra2 s s1 coord_id
    spv.OpImageSampleExplicitLod [spv.ImageOperandsGradMask; extra1; extra2].
Proof.
  intros Hextra ->. unfold fetch_emits. rewrite do_fetch_texture_prepared.
  pose proof sample_insts_prepared as Hsample.
  unfold do_fetch_texture_sample.
  apply Z.eqb_neq in Hextra. rewrite Hextra. simpl.
  finish_fetch dest_type Hsample.
Qed.
End Prepared.
End FetchFacts.

(** C2.  The opcode [do_fetch_texture] emits, for a coordinate that passes
    the assertion: without an LOD operand the projective implicit-LOD
    sample when [lod_mode] is 4 and the plain implicit-LOD sample
    otherwise; with an LOD operand the explicit-LOD sample with [extra1] as
    the LOD when [lod_mode] is 2, and the explicit-gradient sample with
    exactly [extra1] and [extra2] when [lod_mode] is 3. *)
Theorem do_fetch_texture_selects_opcode (env : Collaborators) (tex : spv.Id) (coord : Coord)
    (dest_type : DataType) (lod_mode : Z) (extra1 extra2 : spv.Id)
    (s s1 : TState) (coord_id : spv.Id) :
  do_fetch_texture_coord env coord s = Ok coord_id s1 →
  hasFloatComponents env s1 coord_id = true →
  (extra1 = spv.NoResult → lod_mode = 4 →
   fetch_emits env tex coord dest_type lod_mode extra1 extra2 s s1 coord_id
     spv.OpImageSampleProjImplicitLod [])
  ∧ (extra1 = spv.NoResult → lod_mode ≠ 4 →
     fetch_emits env tex coord dest_type lod_mode extra1 extra2 s s1 coord_id
       spv.OpImageSampleImplicitLod [])
  ∧ (extra1 ≠ spv.NoResult → lod_mode = 2 →
     fetch_emits env tex coord dest_type lod_mode extra1 extra2 s s1 coord_id
       spv.OpImageSampleExplicitLod [spv.ImageOperandsLodMask; extra1])
  ∧ (extra1 ≠ spv.NoResult → lod_mode = 3 →
     fetch_emits env tex coord dest_type lod_mode extra1 extra2 s s1 coord_id
       spv.OpImageSampleExplicitLod [spv.ImageOperandsGradMask; extra1; extra2]).
Proof.
  intros Hcoord Hfloat. repeat split.
  - by apply fetch_proj_implicit.
  - by apply fetch_implicit.
  - by apply fetch_explicit_lod.
  - by apply fetch_explicit_grad.
Qed.

Lemma do_fetch_texture_selects_opcode_witness :
  fetch_emits demo_env 40 (50, F32) F32 3 1007 1023 demo_state demo_state 50
    spv.OpImageSampleExplicitLod [spv.ImageOperandsGradMask; 1007; 1023].
Proof.
  refine (proj2 (proj2 (proj2
            (do_fetch_texture_selects_opcode demo_env 40 (50, F32) F32 3 1007 1023
               demo_state demo_state 50 _ _))) _ _);
    [reflexivity | reflexivity | discriminate | reflexivity].
Defined.

(** ** The coordinate and the extras of [smp] *)

Section SmpCoordinate.
Context (env : Collaborators) (v : Visitor).

Lemma smp_dim_of a d : Smp.dim a = d → smp_dim a = u8 (d + 1).
Proof. intros <-. reflexivity. Qed.

(** The coordinate load is the first load of the instruction. *)
Lemma loads_after_load a sampler fmt s :
  loads (trace (smp_after_load env v a sampler fmt s)) =
    (smp_src0 env v a, smp_coord_mask (smp_dim a), 0) :: loads (trace s).
Proof. reflexivity. Qed.

(** From the coordinate load on, for a coordinate that was loaded. *)
Lemma smp_runs_from_coord a sampler fmt s :
  lod_supported (Smp.lod_mode a) →
  sampler_bound env v a sampler →
  selects_format a fmt →
  smp_loaded_coord env v a sampler fmt s ≠ spv.NoResult →
  smp env v a s =
    (cd <- smp_coord (smp_loaded_coord env v a sampler fmt s) (smp_dim a) ;;
     ex <- smp_extras env v a cd.2 ;;
     result <- do_fetch_texture env sampler.(SamplerInfo.id) (cd.1, F32) F32
                 (Smp.lod_mode a) ex.1 ex.2 ;;
     smp_store a sampler (smp_dest env a sampler fmt) result)%tr
    (smp_after_load env v a sampler fmt s).
Proof.
  intros Hlod Hbound Hfmt Hcoord.
  rewrite (smp_runs_to_coord_load env v a sampler fmt s Hlod Hbound Hfmt).
  apply Z.eqb_neq in Hcoord. by rewrite Hcoord.
Qed.
End SmpCoordinate.

(** C5.  For a line (the [dim] field is 0) the coordinate is loaded with
    mask 0b0001, and the coordinate handed to [do_fetch_texture] is the
    result of a composite construct of type vector-of-2-floats whose parts
    are the loaded coordinate and the float constant 0.0. *)
Theorem smp_line_coord_zero_y (env : Collaborators) (v : Visitor) (a : Smp.t)
    (sampler : SamplerInfo.t) (fmt : DataType) (s : TState) :
  Smp.dim a = 0 →
  lod_supported (Smp.lod_mode a) →
  sampler_bound env v a sampler →
  selects_format a fmt →
  smp_loaded_coord env v a sampler fmt s ≠ spv.NoResult →
  let loaded := smp_loaded_coord env v a sampler fmt s in
  let s1 := smp_after_load env v a sampler fmt s in
  let zero := next_id s1 in
  let coord := next_id s1 + 1 in
  loads (trace s1) = (smp_src0 env v a, 1, 0) :: loads (trace s)
  ∧ smp env v a s =
      (ex <- smp_extras env v a 2 ;;
       result <- do_fetch_texture env sampler.(SamplerInfo.id) (coord, F32) F32
                   (Smp.lod_mode a) ex.1 ex.2 ;;
       smp_store a sampler (smp_dest env a sampler fmt) result)%tr
      (push (EInst (spv.InstCompositeConstruct coord
                      (spv.TypeVector (spv.TypeFloat 32) 2) [loaded; zero]))
         (bump (push (EConstant zero (spv.FloatConstant 0)) (bump s1)))).
Proof.
  intros Hdim Hlod Hbound Hfmt Hcoord. cbv zeta.
  split.
  - rewrite loads_after_load. by rewrite (smp_dim_of a 0 Hdim).
  - rewrite (smp_runs_from_coord env v a sampler fmt s Hlod Hbound Hfmt Hcoord).
    rewrite (smp_dim_of a 0 Hdim). reflexivity.
Qed.

Lemma smp_line_coord_zero_y_witness :
  let a := demo_smp 0 0 2 0 1 5 in
  let sampler := SamplerInfo.mk 40 F32 4 in
  let s1 := smp_after_load demo_env demo_visitor a sampler F32 demo_state in
  loads (trace s1) = (smp_src0 demo_env demo_visitor a, 1, 0) :: loads (trace demo_state)
  ∧ smp demo_env demo_visitor a demo_state =
      (ex <- smp_extras demo_env demo_visitor a 2 ;;
       result <- do_fetch_texture demo_env 40 (101, F32) F32 2 ex.1 ex.2 ;;
       smp_store a sampler (smp_dest demo_env a sampler F32) result)%tr
      (push (EInst (spv.InstCompositeConstruct 101
                      (spv.TypeVector (spv.TypeFloat 32) 2) [1065; 100]))
         (bump (push (EConstant 100 (spv.FloatConstant 0)) (bump s1)))).
Proof.
  apply (smp_line_coord_zero_y demo_env demo_visitor (demo_smp 0 0 2 0 1 5)
           (SamplerInfo.mk 40 F32 4) F32 demo_state).
  - reflexivity.
  - right; left; reflexivity.
  - vm_compute; reflexivity.
  - split; [simpl; lia | reflexivity].
  - vm_compute; discriminate.
Defined.

(** C6.  In GRADIENT mode ([lod_mode] 3) a 2-dimensional sample loads its
    two extras from source 2 with masks 0b0011 and 0b1100; a 3-dimensional
    sample loads both from source 2 with mask 0b0111, the second at
    offset 1.  Both are handed to [do_fetch_texture].  A line, whose
    dimensionality was set to 2 with its zero Y, loads as a 2-dimensional
    sample does. *)
Theorem smp_gradient_extras (env : Collaborators) (v : Visitor) (a : Smp.t)
    (sampler : SamplerInfo.t) (fmt : DataType) (s : TState) :
  Smp.lod_mode a = 3 →
  sampler_bound env v a sampler →
  selects_format a fmt →
  smp_loaded_coord env v a sampler fmt s ≠ spv.NoResult →
  let coord := smp_loaded_coord env v a sampler fmt s in
  let s1 := smp_after_load env v a sampler fmt s in
  let src2 := smp_src2 env v a in
  let fetch_and_store coord extra1 extra2 :=
    (result <- do_fetch_texture env sampler.(SamplerInfo.id) (coord, F32) F32 3
                 extra1 extra2 ;;
     smp_store a sampler (smp_dest env a sampler fmt) result)%tr in
  (Smp.dim a = 1 →
   let extra1 := load_result env s1 src2 3 0 in
   let s2 := push (ELoad src2 3 0 extra1) s1 in
   let extra2 := load_result env s2 src2 12 0 in
   let s3 := push (ELoad src2 12 0 extra2) s2 in
   loads (trace s3) =
     (src2, 12, 0) :: (src2, 3, 0) :: (smp_src0 env v a, 3, 0) :: loads (trace s)
   ∧ smp env v a s = fetch_and_store coord extra1 extra2 s3)
  ∧ (Smp.dim a = 2 →
     let extra1 := load_result env s1 src2 7 0 in
     let s2 := push (ELoad src2 7 0 extra1) s1 in
     let extra2 := load_result env s2 src2 7 1 in
     let s3 := push (ELoad src2 7 1 extra2) s2 in
     loads (trace s3) =
       (src2, 7, 1) :: (src2, 7, 0) :: (smp_src0 env v a, 7, 0) :: loads (trace s)
     ∧ smp env v a s = fetch_and_store coord extra1 extra2 s3)
  ∧ (Smp.dim a = 0 →
     let zero := next_id s1 in
     let line := next_id s1 + 1 in
     let s1' := push (EInst (spv.InstCompositeConstruct line
                               (spv.TypeVector (spv.TypeFloat 32) 2) [coord; zero]))
                  (bump (push (EConstant zero (spv.FloatConstant 0)) (bump s1))) in
     let extra1 := load_result env s1' src2 3 0 in
     let s2 := push (ELoad src2 3 0 extra1) s1' in
     let extra2 := load_result env s2 src2 12 0 in
     let s3 := push (ELoad src2 12 0 extra2) s2 in
     loads (trace s3) =
       (src2, 12, 0) :: (src2, 3, 0) :: (smp_src0 env v a, 1, 0) :: loads (trace s)
     ∧ smp env v a s = fetch_and_store line extra1 extra2 s3).
Proof.
  intros Hlod Hbound Hfmt Hcoord. cbv zeta.
  assert (Hsup : lod_supported (Smp.lod_mode a)) by (rewrite Hlod; by right; right).
  rewrite (smp_runs_from_coord env v a sampler fmt s Hsup Hbound Hfmt Hcoord).
  split; [|split]; intros Hdim; cbn [loads trace push bump];
    rewrite loads_after_load; rewrite (smp_dim_of a _ Hdim);
    (split; [reflexivity|]);
    unfold smp_coord, smp_extras; rewrite Hlod; reflexivity.
Qed.

Lemma smp_gradient_extras_witness :
  let a := demo_smp 0 2 3 0 1 5 in
  let sampler := SamplerInfo.mk 40 F32 4 in
  let s1 := smp_after_load demo_env demo_visitor a sampler F32 demo_state in
  let src2 := smp_src2 demo_env demo_visitor a in
  let s3 := push (ELoad src2 7 1 1599) (push (ELoad src2 7 0 1583) s1) in
  loads (trace s3) =
    (src2, 7, 1) :: (src2, 7, 0) :: (smp_src0 demo_env demo_visitor a, 7, 0)
      :: loads (trace demo_state)
  ∧ smp demo_env demo_visitor a demo_state =
      (result <- do_fetch_texture demo_env 40 (1071, F32) F32 3 1583 1599 ;;
       smp_store a sampler (smp_dest demo_env a sampler F32) result)%tr s3.
Proof.
  refine (proj1 (proj2 (smp_gradient_extras demo_env demo_visitor (demo_smp 0 2 3 0 1 5)
                          (SamplerInfo.mk 40 F32 4) F32 demo_state _ _ _ _)) _).
  - reflexivity.
  - vm_compute; reflexivity.
  - split; [simpl; lia | reflexivity].
  - vm_compute; discriminate.
  - reflexivity.
Defined.

(** C10.  When the [dim] field is 3 the dimensionality becomes 4 and the
    handler goes on: the coordinate is loaded with the default mask
    0b0011 and handed to [do_fetch_texture] as loaded, without a zero Y.
    In GRADIENT mode no extra is loaded, both extras stay [spv::NoResult],
    and the instruction emitted is the plain implicit-LOD sample. *)
Theorem smp_dim4_falls_through (env : Collaborators) (v : Visitor) (a : Smp.t)
    (sampler : SamplerInfo.t) (fmt : DataType) (s : TState) :
  Smp.dim a = 3 →
  lod_supported (Smp.lod_mode a) →
  sampler_bound env v a sampler →
  selects_format a fmt →
  smp_loaded_coord env v a sampler fmt s ≠ spv.NoResult →
  let coord := smp_loaded_coord env v a sampler fmt s in
  let s1 := smp_after_load env v a sampler fmt s in
  let tex := sampler.(SamplerInfo.id) in
  smp_dim a = 4
  ∧ loads (trace s1) = (smp_src0 env v a, 3, 0) :: loads (trace s)
  ∧ smp env v a s =
      (ex <- smp_extras env v a 4 ;;
       result <- do_fetch_texture env tex (coord, F32) F32 (Smp.lod_mode a) ex.1 ex.2 ;;
       smp_store a sampler (smp_dest env a sampler fmt) result)%tr s1
  ∧ (Smp.lod_mode a = 3 →
     smp env v a s =
       (result <- do_fetch_texture env tex (coord, F32) F32 3 spv.NoResult spv.NoResult ;;
        smp_store a sampler (smp_dest env a sampler fmt) result)%tr s1
     ∧ ∀ coord_id s2,
         do_fetch_texture_coord env (coord, F32) s1 = Ok coord_id s2 →
         hasFloatComponents env s2 coord_id = true →
         fetch_emits env tex (coord, F32) F32 3 spv.NoResult spv.NoResult s1 s2 coord_id
           spv.OpImageSampleImplicitLod []).
Proof.
  intros Hdim Hlod Hbound Hfmt Hcoord. cbv zeta.
  pose proof (smp_dim_of a 3 Hdim) as Hdim4. change (u8 (3 + 1)) with 4 in Hdim4.
  split; [exact Hdim4|].
  split; [by rewrite loads_after_load, Hdim4|].
  rewrite (smp_runs_from_coord env v a sampler fmt s Hlod Hbound Hfmt Hcoord).
  rewrite Hdim4.
  split; [reflexivity|].
  intros Hgrad. split.
  - unfold smp_coord, smp_extras. rewrite Hgrad. reflexivity.
  - intros coord_id s2 Hprep Hfloat.
    by apply (fetch_implicit env _ _ _ _ Hprep Hfloat).
Qed.

Lemma smp_dim4_falls_through_witness :
  let a := demo_smp 0 3 3 0 1 5 in
  let sampler := SamplerInfo.mk 40 F32 4 in
  let s1 := smp_after_load demo_env demo_visitor a sampler F32 demo_state in
  smp demo_env demo_visitor a demo_state =
    (result <- do_fetch_texture demo_env 40 (1067, F32) F32 3 spv.NoResult spv.NoResult ;;
     smp_store a sampler (smp_dest demo_env a sampler F32) result)%tr s1
  ∧ fetch_emits demo_env 40 (1067, F32) F32 3 spv.NoResult spv.NoResult s1 s1 1067
      spv.OpImageSampleImplicitLod [].
Proof.
  destruct (smp_dim4_falls_through demo_env demo_visitor (demo_smp 0 3 3 0 1 5)
              (SamplerInfo.mk 40 F32 4) F32 demo_state) as (_ & _ & _ & Hgrad).
  - reflexivity.
  - right; right; reflexivity.
  - vm_compute; reflexivity.
  - split; [simpl; lia | reflexivity].
  - vm_compute; discriminate.
  - destruct (Hgrad eq_refl) as [Hrun Hemit]. split; [exact Hrun|].
    apply Hemit; reflexivity.
Defined.

(** ** What each stage leaves in the trace *)

Section Effects.
Context (env : Collaborators).

Lemma do_fetch_texture_sample_quiet tex coord_id lod_mode extra1 extra2 s :
  ∃ result s',
    do_fetch_texture_sample tex coord_id lod_mode extra1 extra2 s = Ok result s'
    ∧ stores (trace s') = stores (trace s)
    ∧ conversions (trace s') = conversions (trace s).
Proof.
  unfold do_fetch_texture_sample.
  destruct (extra1 =? spv.NoResult); [destruct (lod_mode =? 4)|
    destruct (lod_mode =? 2); [|destruct (lod_mode =? 3)]];
    run; eexists _, _; by repeat split.
Qed.

(** [do_fetch_texture] stores nothing, and asks for an integer
    conversion exactly when [dest_type] is an integer kind. *)
Lemma do_fetch_texture_effects tex coord dest_type lod_mode extra1 extra2 s result s' :
  do_fetch_texture env tex coord dest_type lod_mode extra1 extra2 s = Ok result s' →
  stores (trace s') = stores (trace s)
  ∧ conversions (trace s') =
      (if is_integer_data_type dest_type then [dest_type] else [])
        ++ conversions (trace s).
Proof.
  unfold do_fetch_texture. intros H.
  apply bind_Ok_inv in H as (coord_id & s1 & Hcoord & H).
  destruct (do_fetch_texture_coord_quiet env coord s) as (c & s1' & Hc & _ & Hst1 & Hcv1).
  rewrite Hcoord in Hc. injection Hc as <- <-.
  apply bind_Ok_inv in H as ([] & s2 & Hassert & H).
  unfold assert_float_components in Hassert.
  destruct (hasFloatComponents env s1 coord_id); [|discriminate].
  injection Hassert as <-.
  apply bind_Ok_inv in H as (image_sample & s3 & Hsample & H).
  destruct (do_fetch_texture_sample_quiet tex coord_id lod_mode extra1 extra2 s1)
    as (r & s3' & Hr & Hst3 & Hcv3).
  rewrite Hsample in Hr. injection Hr as <- <-.
  destruct (is_integer_data_type dest_type).
  - unfold convert_to_int in H. injection H as <- <-. simpl.
    by rewrite Hst3, Hst1, Hcv3, Hcv1.
  - unfold ret in H. injection H as <- <-. simpl.
    by rewrite Hst3, Hst1, Hcv3, Hcv1.
Qed.

Lemma component_mask_Ok component_count mask s s' :
  component_mask component_count s = Ok mask s' →
  s' = s ∧ 0 ≤ component_count < 32
  ∧ mask = (((1 ≪ component_count) - 1) `mod` 2 ^ 32) `mod` 2 ^ 8.
Proof.
  unfold component_mask.
  destruct ((0 <=? component_count) && (component_count <? 32)) eqn:Hrange;
    [|discriminate].
  unfold ret. intros H. injection H as <- <-.
  apply andb_prop in Hrange as [H0 H32]. repeat split; lia.
Qed.

(** For one to four components nothing wraps. *)
Lemma component_mask_small component_count s :
  1 ≤ component_count ≤ 4 →
  component_mask component_count s = Ok ((1 ≪ component_count) - 1) s.
Proof.
  intros Hrange.
  assert (component_count = 1 ∨ component_count = 2 ∨ component_count = 3
          ∨ component_count = 4) as [-> | [-> | [-> | ->]]] by lia;
    reflexivity.
Qed.

(** One query: the fetch, then one store of its result. *)
Lemma do_texture_query_Ok store_op texture_query s store_op' s' :
  do_texture_query env store_op texture_query s = Ok store_op' s' →
  ∃ tex_coord lod_mode s1 fetch_result s2 mask,
    do_fetch_texture env (TextureQuery.sampler texture_query) tex_coord
      (Operand.type store_op') lod_mode 0 spv.NoResult s1 = Ok fetch_result s2
    ∧ component_mask (TextureQuery.component_count texture_query) s2 = Ok mask s2
    ∧ s' = push (EStore store_op' fetch_result mask) s2
    ∧ stores (trace s1) = stores (trace s)
    ∧ conversions (trace s1) = conversions (trace s)
    ∧ Operand.type store_op' =
        (if decide (TextureQuery.store_type texture_query = UNK)
         then TextureQuery.component_type texture_query
         else TextureQuery.store_type texture_query).
Proof.
  unfold do_texture_query. intros H.
  apply bind_Ok_inv in H as (r & s1 & Hr & H).
  apply bind_Ok_inv in H as (fetch_result & s2 & Hfetch & H).
  apply bind_Ok_inv in H as (mask & s3 & Hmask & H).
  pose proof (component_mask_Ok _ _ _ _ Hmask) as (-> & _ & _).
  apply bind_Ok_inv in H as ([] & s4 & Hstore & H).
  unfold store, emit in Hstore. injection Hstore as <-.
  unfold ret in H. injection H as <- <-.
  exists r.1, (if r.2 then 4 else 0), s1, fetch_result, s2, mask.
  split; [exact Hfetch|]. split; [exact Hmask|]. split; [reflexivity|].
  assert (stores (trace s1) = stores (trace s)
          ∧ conversions (trace s1) = conversions (trace s)) as [Hst Hcv].
  { destruct (0 <=? TextureQuery.prod_pos texture_query);
      revert Hr; run; intros Hr; injection Hr as <- <-; by split. }
  split; [exact Hst|]. split; [exact Hcv|].
  simpl. by destruct (decide (TextureQuery.store_type texture_query = UNK)).
Qed.
End Effects.

(** ** The store of [smp] *)


Section SmpStore.
Context (env : Collaborators) (v : Visitor).

Local Open Scope tr_scope.

Lemma smp_store_switch a sampler dest result :
  smp_store a sampler dest result =
    (dest_mask <- component_mask (SamplerInfo.component_count sampler) ;;
     (if sb_mode_stores (Smp.sb_mode a)
      then store dest result dest_mask
      else LOG_ERROR "Unsupported sb_mode: {}" [Smp.sb_mode a]) ;;
     ret true).
Proof.
  unfold smp_store, sb_mode_stores.
  destruct (Smp.sb_mode a) as [|p|p]; [reflexivity| |reflexivity].
  destruct p as [[p|p|]|[p|p|]|]; reflexivity.
Qed.

Lemma sb_mode_stores_true sb_mode :
  sb_mode = 0 ∨ sb_mode = 1 ∨ sb_mode = 3 → sb_mode_stores sb_mode = true.
Proof. by intros [-> | [-> | ->]]. Qed.

Lemma sb_mode_stores_inv sb_mode :
  sb_mode_stores sb_mode = true → sb_mode = 0 ∨ sb_mode = 1 ∨ sb_mode = 3.
Proof. unfold sb_mode_stores. lia. Qed.

(** The three storing sideband modes are translated alike. *)
Lemma smp_sb_mode_alike a sb_mode :
  sb_mode_stores (Smp.sb_mode a) = true →
  sb_mode_stores sb_mode = true →
  smp env v (Smp.set_sb_mode a sb_mode) = smp env v a.
Proof.
  intros Ha Hsb. destruct a. simpl in Ha.
  apply sb_mode_stores_inv in Ha as [-> | [-> | ->]];
    apply sb_mode_stores_inv in Hsb as [-> | [-> | ->]]; reflexivity.
Qed.

(** A successful run, for a supported LOD mode and a bound sampler, went
    through the fetch and the final switch. *)
Lemma smp_Ok_true a sampler s s' :
  lod_supported (Smp.lod_mode a) →
  sampler_bound env v a sampler →
  smp env v a s = Ok true s' →
  ∃ fmt coord extra1 extra2 s1 result s2 mask,
    selects_format a fmt
    ∧ do_fetch_texture env sampler.(SamplerInfo.id) (coord, F32) F32
        (Smp.lod_mode a) extra1 extra2 s1 = Ok result s2
    ∧ component_mask (SamplerInfo.component_count sampler) s2 = Ok mask s2
    ∧ s' = push (if sb_mode_stores (Smp.sb_mode a)
                 then EStore (smp_dest env a sampler fmt) result mask
                 else ELogError "Unsupported sb_mode: {}" [Smp.sb_mode a]) s2
    ∧ stores (trace s1) = stores (trace s)
    ∧ conversions (trace s1) = conversions (trace s).
Proof.
  intros Hlod Hbound Hrun.
  assert (∃ fmt, selects_format a fmt) as [fmt Hfmt].
  { revert Hrun. unfold smp. rewrite (lod_supported_check _ Hlod).
    unfold sampler_bound in Hbound. rewrite Hbound.
    unfold bind at 1, array_read, selects_format.
    destruct (0 <=? Smp.fconv_type a) eqn:Hpos; [|discriminate].
    destruct (tb_dest_fmt !! Z.to_nat (Smp.fconv_type a)) as [fmt|] eqn:Hread;
      [|discriminate].
    intros _. exists fmt. split; [lia|done]. }
  rewrite (smp_runs_to_coord_load env v a sampler fmt s Hlod Hbound Hfmt) in Hrun.
  destruct (smp_loaded_coord env v a sampler fmt s =? spv.NoResult); [discriminate|].
  apply bind_Ok_inv in Hrun as (cd & s0 & Hcd & Hrun).
  apply bind_Ok_inv in Hrun as (ex & s1 & Hex & Hrun).
  apply bind_Ok_inv in Hrun as (result & s2 & Hfetch & Hrun).
  rewrite smp_store_switch in Hrun.
  apply bind_Ok_inv in Hrun as (mask & s3 & Hmask & Hrun).
  pose proof (component_mask_Ok _ _ _ _ Hmask) as (-> & _ & _).
  exists fmt, cd.1, ex.1, ex.2, s1, result, s2, mask.
  split; [exact Hfmt|]. split; [exact Hfetch|]. split; [exact Hmask|].
  split.
  { revert Hrun. destruct (sb_mode_stores (Smp.sb_mode a)); run;
      intros H; by injection H as <-. }
  assert (stores (trace s0) = stores (trace s)
          ∧ conversions (trace s0) = conversions (trace s)) as [Hst0 Hcv0].
  { revert Hcd. unfold smp_coord. destruct (smp_dim a =? 1); run;
      intros H; injection H as <- <-; by split. }
  revert Hex. unfold smp_extras.
  destruct (negb (Smp.lod_mode a =? 0)).
  - destruct Hlod as [Hl | [Hl | Hl]]; rewrite Hl.
    + run. intros H; injection H as <- <-. by split.
    + run. intros H; injection H as <- <-. by split.
    + destruct cd.2 as [|[[p|p|]|[p|p|]|]|p]; run;
        intros H; injection H as <- <-; by split.
  - run. intros H; injection H as <- <-. by split.
Qed.
End SmpStore.

(** ** Destination masks *)


Lemma do_texture_queries_from_masks env texture_queries :
  ∀ store_op s s',
    Forall (λ q, count_1_to_4 (TextureQuery.component_count q)) texture_queries →
    do_texture_queries_from env store_op texture_queries s = Ok tt s' →
    store_masks (trace s') =
      rev (map query_mask texture_queries) ++ store_masks (trace s).
Proof.
  induction texture_queries as [|q qs IH]; intros store_op s s' Hcounts Hrun.
  - injection Hrun as <-. reflexivity.
  - apply Forall_cons in Hcounts as [Hq Hqs]. simpl in Hrun.
    apply bind_Ok_inv in Hrun as (store_op1 & s1 & Hquery & Hrest).
    apply do_texture_query_Ok in Hquery
      as (tc & lod & s0 & r & s2 & mask & Hfetch & Hmask & -> & Hst0 & _ & _).
    rewrite (component_mask_small _ s2 Hq) in Hmask. injection Hmask as <-.
    apply do_fetch_texture_effects in Hfetch as [Hst2 _].
    rewrite (IH _ _ _ Hqs Hrest). simpl. rewrite <- app_assoc. simpl.
    unfold store_masks. simpl. by rewrite Hst2, Hst0.
Qed.

(** C8.  The destination write mask is [(1 << component_count) - 1] for a
    component count of 1 to 4, in [smp] and in [do_texture_queries] alike.
    In [smp], for a sideband mode of 0, 1 or 3, the last event is the store
    of what [do_fetch_texture] returned, with that mask, and the three
    sideband modes give the same translation. *)
Theorem dest_mask_and_sb_mode (env : Collaborators) (v : Visitor) :
  (∀ a sampler s s',
     lod_supported (Smp.lod_mode a) →
     sampler_bound env v a sampler →
     count_1_to_4 (SamplerInfo.component_count sampler) →
     Smp.sb_mode a = 0 ∨ Smp.sb_mode a = 1 ∨ Smp.sb_mode a = 3 →
     smp env v a s = Ok true s' →
     (∃ fmt coord extra1 extra2 s1 result s2,
        do_fetch_texture env sampler.(SamplerInfo.id) (coord, F32) F32
          (Smp.lod_mode a) extra1 extra2 s1 = Ok result s2
        ∧ s' = push (EStore (smp_dest env a sampler fmt) result
                       ((1 ≪ SamplerInfo.component_count sampler) - 1)) s2)
     ∧ ∀ sb_mode, sb_mode = 0 ∨ sb_mode = 1 ∨ sb_mode = 3 →
                  smp env v (Smp.set_sb_mode a sb_mode) s = Ok true s')
  ∧ (∀ texture_queries s s',
       Forall (λ q, count_1_to_4 (TextureQuery.component_count q)) texture_queries →
       do_texture_queries env texture_queries s = Ok tt s' →
       store_masks (trace s') =
         rev (map query_mask texture_queries) ++ store_masks (trace s)).
Proof.
  split.
  - intros a sampler s s' Hlod Hbound Hcount Hsb Hrun.
    pose proof (sb_mode_stores_true _ Hsb) as Hstores.
    split.
    + destruct (smp_Ok_true env v a sampler s s' Hlod Hbound Hrun)
        as (fmt & coord & e1 & e2 & s1 & result & s2 & mask
            & _ & Hfetch & Hmask & -> & _).
      rewrite (component_mask_small _ s2 Hcount) in Hmask. injection Hmask as <-.
      rewrite Hstores. by exists fmt, coord, e1, e2, s1, result, s2.
    + intros sb Hsb'. rewrite smp_sb_mode_alike; [exact Hrun|exact Hstores|].
      by apply sb_mode_stores_true.
  - intros qs s s' Hcounts Hrun. by eapply do_texture_queries_from_masks.
Qed.

Lemma dest_mask_and_sb_mode_witness :
  let a := demo_smp 0 1 0 0 1 6 in
  let sampler := SamplerInfo.mk 41 UINT8 3 in
  let s' := run_state (smp demo_env demo_visitor a demo_state) in
  let texture_queries := [demo_query F32 F32 (-1) 3; demo_query F32 F32 (-1) 1] in
  ((∃ fmt coord extra1 extra2 s1 result s2,
      do_fetch_texture demo_env 41 (coord, F32) F32 0 extra1 extra2 s1 = Ok result s2
      ∧ s' = push (EStore (smp_dest demo_env a sampler fmt) result 7) s2)
   ∧ ∀ sb_mode, sb_mode = 0 ∨ sb_mode = 1 ∨ sb_mode = 3 →
                smp demo_env demo_visitor (Smp.set_sb_mode a sb_mode) demo_state = Ok true s')
  ∧ store_masks (trace (run_state (do_texture_queries demo_env texture_queries demo_state)))
    = [1; 7].
Proof.
  destruct (dest_mask_and_sb_mode demo_env demo_visitor) as [Hsmp Hqueries].
  split.
  - apply (Hsmp (demo_smp 0 1 0 0 1 6) (SamplerInfo.mk 41 UINT8 3) demo_state).
    + left; reflexivity.
    + vm_compute; reflexivity.
    + unfold count_1_to_4; simpl; lia.
    + left; reflexivity.
    + vm_compute; reflexivity.
  - apply (Hqueries [demo_query F32 F32 (-1) 3; demo_query F32 F32 (-1) 1] demo_state).
    + repeat constructor; unfold count_1_to_4; simpl; lia.
    + vm_compute; reflexivity.
Defined.

(** ** Destination types *)


Section DestinationTypes.
Context (env : Collaborators) (v : Visitor).

(** What a successful [smp] adds to the stores and to the integer
    conversions: at most one store, to the resolved destination, and no
    conversion, since the fetch is asked for [F32]. *)
Lemma smp_Ok_true_effects a sampler s s' :
  lod_supported (Smp.lod_mode a) →
  sampler_bound env v a sampler →
  smp env v a s = Ok true s' →
  ∃ fmt, selects_format a fmt
    ∧ (stores (trace s') = stores (trace s)
       ∨ ∃ result mask,
           stores (trace s') =
             (smp_dest env a sampler fmt, result, mask) :: stores (trace s))
    ∧ conversions (trace s') = conversions (trace s).
Proof.
  intros Hlod Hbound Hrun.
  destruct (smp_Ok_true env v a sampler s s' Hlod Hbound Hrun)
    as (fmt & coord & e1 & e2 & s1 & result & s2 & mask
        & Hfmt & Hfetch & _ & -> & Hst1 & Hcv1).
  apply do_fetch_texture_effects in Hfetch as [Hst2 Hcv2]. simpl in Hcv2.
  exists fmt. split; [exact Hfmt|].
  destruct (sb_mode_stores (Smp.sb_mode a)); simpl.
  - split; [right; exists result, mask; by rewrite Hst2, Hst1|].
    by rewrite Hcv2, Hcv1.
  - split; [left; by rewrite Hst2, Hst1|]. by rewrite Hcv2, Hcv1.
Qed.

Lemma selects_format_unique a fmt fmt' :
  selects_format a fmt → selects_format a fmt' → fmt = fmt'.
Proof. intros [_ H] [_ H']. congruence. Qed.



End DestinationTypes.




(** ** The type [smp] asks the fetch for *)

(** C1.  [smp] hands [do_fetch_texture] the literal [F32], not the
    destination type it resolved.  On a sampler of component type [UINT8]
    with [fconv_type] selecting the [UNK] entry, the destination resolves
    to [UINT8], an integer kind, and the sample is stored to it without
    any integer conversion; [do_texture_queries], which hands the resolved
    type over, converts the same sample to [UINT8] before storing it. *)
Theorem smp_integer_destination_not_converted :
  selects_format (demo_smp 1 1 0 0 1 6) UNK
  ∧ sampler_bound demo_env demo_visitor (demo_smp 1 1 0 0 1 6) (SamplerInfo.mk 41 UINT8 3)
  ∧ is_integer_data_type UINT8 = true
  ∧ smp demo_env demo_visitor (demo_smp 1 1 0 0 1 6) demo_state
    = Ok true (run_state (smp demo_env demo_visitor (demo_smp 1 1 0 0 1 6) demo_state))
  ∧ store_types
      (trace (run_state (smp demo_env demo_visitor (demo_smp 1 1 0 0 1 6) demo_state)))
    = [UINT8]
  ∧ conversions
      (trace (run_state (smp demo_env demo_visitor (demo_smp 1 1 0 0 1 6) demo_state)))
    = []
  ∧ do_texture_queries demo_env [demo_query UNK UINT8 (-1) 3] demo_state
    = Ok tt (run_state (do_texture_queries demo_env [demo_query UNK UINT8 (-1) 3] demo_state))
  ∧ store_types
      (trace (run_state (do_texture_queries demo_env [demo_query UNK UINT8 (-1) 3] demo_state)))
    = [UINT8]
  ∧ conversions
      (trace (run_state (do_texture_queries demo_env [demo_query UNK UINT8 (-1) 3] demo_state)))
    = [UINT8].
Proof.
  repeat split; try (vm_compute; reflexivity). simpl; lia.
Qed.

(** ** The stages of a run, taken apart *)

Section Stages.
Context (env : Collaborators) (v : Visitor).

(** A completed [do_fetch_texture]: the coordinate was prepared, passed
    the assertion, the sampling stage ran, and the result was converted
    exactly when [dest_type] is an integer kind. *)
Lemma do_fetch_texture_Ok tex coord dest_type lod_mode extra1 extra2 s result s' :
  do_fetch_texture env tex coord dest_type lod_mode extra1 extra2 s = Ok result s' →
  ∃ coord_id s1 image_sample s2,
    do_fetch_texture_coord env coord s = Ok coord_id s1
    ∧ hasFloatComponents env s1 coord_id = true
    ∧ do_fetch_texture_sample tex coord_id lod_mode extra1 extra2 s1 = Ok image_sample s2
    ∧ if is_integer_data_type dest_type
      then s' = push (EConvertToInt image_sample dest_type true result) s2
      else result = image_sample ∧ s' = s2.
Proof.
  unfold do_fetch_texture. intros H.
  apply bind_Ok_inv in H as (coord_id & s1 & Hcoord & H).
  apply bind_Ok_inv in H as ([] & s1' & Hassert & H).
  unfold assert_float_components in Hassert.
  destruct (hasFloatComponents env s1 coord_id) eqn:Hfloat; [|discriminate].
  injection Hassert as <-.
  apply bind_Ok_inv in H as (image_sample & s2 & Hsample & H).
  exists coord_id, s1, image_sample, s2.
  split; [exact Hcoord|]. split; [exact Hfloat|]. split; [exact Hsample|].
  destruct (is_integer_data_type dest_type).
  - unfold convert_to_int in H. by injection H as <- <-.
  - unfold ret in H. by injection H as <- <-.
Qed.

(** The sampling stage appends a load of the texture and one sampling
    instruction, whose id it returns, or nothing at all. *)
Lemma do_fetch_texture_sample_Ok tex coord_id lod_mode extra1 extra2 s result s' :
  do_fetch_texture_sample tex coord_id lod_mode extra1 extra2 s = Ok result s' →
  (samples lod_mode extra1 →
   ∃ op operands,
     s' = push (EInst (spv.InstOp result op (type_f32_v 4) operands))
            (bump (push (EInst (spv.InstLoad (next_id s) tex)) (bump s)))
     ∧ result = next_id s + 1
     ∧ is_image_sample op = true)
  ∧ (¬ samples lod_mode extra1 → result = spv.NoResult ∧ s' = s).
Proof.
  unfold do_fetch_texture_sample, samples.
  destruct (extra1 =? spv.NoResult) eqn:He1.
  - apply Z.eqb_eq in He1.
    destruct (lod_mode =? 4); run; intros H; injection H as <- <-;
      (split; [intros _; eexists _, _; by repeat split | intros Hn; destruct Hn; by left]).
  - apply Z.eqb_neq in He1.
    destruct (lod_mode =? 2) eqn:H2; [|destruct (lod_mode =? 3) eqn:H3];
      run; intros H; injection H as <- <-.
    + split; [intros _; eexists _, _; by repeat split|].
      intros Hn; destruct Hn. apply Z.eqb_eq in H2. by right; left.
    + split; [intros _; eexists _, _; by repeat split|].
      intros Hn; destruct Hn. apply Z.eqb_eq in H3. by right; right.
    + apply Z.eqb_neq in H2, H3. split; [|done].
      intros [? | [? | ?]]; congruence.
Qed.

(** A coordinate that is [F32] already is not unpacked; preparing any
    coordinate logs no error. *)
Lemma do_fetch_texture_coord_f32_quiet c s coord_id s1 :
  do_fetch_texture_coord env (c, F32) s = Ok coord_id s1 →
  unpacks (trace s1) = unpacks (trace s)
  ∧ errors (trace s1) = errors (trace s)
  ∧ sample_insts (trace s1) = sample_insts (trace s)
  ∧ stores (trace s1) = stores (trace s)
  ∧ conversions (trace s1) = conversions (trace s).
Proof.
  unfold do_fetch_texture_coord. simpl.
  destruct (decide (F32 ≠ F32)) as [Hne|_]; [by destruct Hne|].
  run. destruct (isPointer env s c); simpl; intros H; injection H as <- <-;
    by repeat split.
Qed.

(** The zero Y of a line leaves loads, stores and errors alone. *)
Lemma smp_coord_Ok coord dim s cd s' :
  smp_coord coord dim s = Ok cd s' →
  sample_insts (trace s') = sample_insts (trace s)
  ∧ stores (trace s') = stores (trace s)
  ∧ conversions (trace s') = conversions (trace s)
  ∧ unpacks (trace s') = unpacks (trace s)
  ∧ errors (trace s') = errors (trace s).
Proof.
  unfold smp_coord. destruct (dim =? 1); run; intros H; injection H as <- <-;
    by repeat split.
Qed.

(** The extras are loads and nothing else, and an LOD operand is only
    there in REPLACE and GRADIENT mode. *)
Lemma smp_extras_Ok a dim s ex s' :
  smp_extras env v a dim s = Ok ex s' →
  sample_insts (trace s') = sample_insts (trace s)
  ∧ stores (trace s') = stores (trace s)
  ∧ conversions (trace s') = conversions (trace s)
  ∧ unpacks (trace s') = unpacks (trace s)
  ∧ errors (trace s') = errors (trace s)
  ∧ (ex.1 ≠ spv.NoResult → Smp.lod_mode a = 2 ∨ Smp.lod_mode a = 3).
Proof.
  unfold smp_extras.
  destruct (Smp.lod_mode a) as [|[[p|p|]|[p|p|]|]|p]; simpl;
    try (run; intros H; injection H as <- <-; repeat split; (done || auto)).
  destruct dim as [|[[p|p|]|[p|p|]|]|p]; run; intros H; injection H as <- <-;
    repeat split; auto.
Qed.

(** A run of [smp] that returned [true] on a supported LOD mode and a
    bound sampler, stage by stage. *)
Lemma smp_Ok_true_stages a sampler s s' :
  lod_supported (Smp.lod_mode a) →
  sampler_bound env v a sampler →
  smp env v a s = Ok true s' →
  ∃ fmt cd s0 ex s1 result s2 mask,
    selects_format a fmt
    ∧ smp_loaded_coord env v a sampler fmt s ≠ spv.NoResult
    ∧ smp_coord (smp_loaded_coord env v a sampler fmt s) (smp_dim a)
        (smp_after_load env v a sampler fmt s) = Ok cd s0
    ∧ smp_extras env v a cd.2 s0 = Ok ex s1
    ∧ do_fetch_texture env sampler.(SamplerInfo.id) (cd.1, F32) F32
        (Smp.lod_mode a) ex.1 ex.2 s1 = Ok result s2
    ∧ component_mask (SamplerInfo.component_count sampler) s2 = Ok mask s2
    ∧ s' = push (if sb_mode_stores (Smp.sb_mode a)
                 then EStore (smp_dest env a sampler fmt) result mask
                 else ELogError "Unsupported sb_mode: {}" [Smp.sb_mode a]) s2.
Proof.
  intros Hlod Hbound Hrun.
  destruct (smp_Ok_true env v a sampler s s' Hlod Hbound Hrun)
    as (fmt & _ & _ & _ & _ & _ & _ & _ & Hfmt & _).
  rewrite (smp_runs_to_coord_load env v a sampler fmt s Hlod Hbound Hfmt) in Hrun.
  destruct (smp_loaded_coord env v a sampler fmt s =? spv.NoResult) eqn:Hc;
    [discriminate|].
  apply Z.eqb_neq in Hc.
  apply bind_Ok_inv in Hrun as (cd & s0 & Hcd & Hrun).
  apply bind_Ok_inv in Hrun as (ex & s1 & Hex & Hrun).
  apply bind_Ok_inv in Hrun as (result & s2 & Hfetch & Hrun).
  rewrite smp_store_switch in Hrun.
  apply bind_Ok_inv in Hrun as (mask & s3 & Hmask & Hrun).
  pose proof (component_mask_Ok _ _ _ _ Hmask) as (-> & _ & _).
  exists fmt, cd, s0, ex, s1, result, s2, mask.
  repeat (split; [done|]).
  revert Hrun. destruct (sb_mode_stores (Smp.sb_mode a)); run;
    intros H; by injection H as <-.
Qed.
End Stages.

Section Runs.
Context (env : Collaborators) (v : Visitor).

Lemma lod_check_false lod_mode :
  negb (lod_mode =? 0) && negb (lod_mode =? 2) && negb (lod_mode =? 3) = false →
  lod_supported lod_mode.
Proof. unfold lod_supported. lia. Qed.

(** A fetch asked for [F32] on an [F32] coordinate: one sampling
    instruction whose id is the result, nothing else of note. *)
Lemma do_fetch_texture_f32_Ok tex c lod_mode extra1 extra2 s result s' :
  do_fetch_texture env tex (c, F32) F32 lod_mode extra1 extra2 s = Ok result s' →
  samples lod_mode extra1 →
  (∃ op operands,
     sample_insts (trace s') =
       spv.InstOp result op (type_f32_v 4) operands :: sample_insts (trace s))
  ∧ stores (trace s') = stores (trace s)
  ∧ conversions (trace s') = conversions (trace s)
  ∧ unpacks (trace s') = unpacks (trace s)
  ∧ errors (trace s') = errors (trace s).
Proof.
  intros Hrun Hsamples.
  apply do_fetch_texture_Ok in Hrun
    as (coord_id & s1 & image_sample & s2 & Hcoord & _ & Hsample & [-> ->]).
  apply do_fetch_texture_coord_f32_quiet in Hcoord as (Hu & He & Hs & Hst & Hcv).
  apply do_fetch_texture_sample_Ok in Hsample as [Hemit _].
  destruct (Hemit Hsamples) as (op & operands & -> & _ & Hop).
  simpl. rewrite Hop, Hu, He, Hs, Hst, Hcv.
  split; [by exists op, operands|done].
Qed.

(** A run that returned with a supported LOD mode and a bound sampler
    found its format in the table. *)
Lemma smp_Ok_format a sampler s b s' :
  lod_supported (Smp.lod_mode a) →
  sampler_bound env v a sampler →
  smp env v a s = Ok b s' →
  ∃ fmt, selects_format a fmt.
Proof.
  intros Hlod Hbound. unfold smp. rewrite (lod_supported_check _ Hlod).
  unfold sampler_bound in Hbound. rewrite Hbound.
  unfold bind at 1, array_read, selects_format.
  destruct (0 <=? Smp.fconv_type a) eqn:Hpos; [|discriminate].
  destruct (tb_dest_fmt !! Z.to_nat (Smp.fconv_type a)) as [fmt|] eqn:Hread;
    [|discriminate].
  intros _. exists fmt. split; [lia|done].
Qed.

Lemma smp_store_true a sampler dest result s b s' :
  smp_store a sampler dest result s = Ok b s' → b = true.
Proof.
  rewrite smp_store_switch. intros H.
  apply bind_Ok_inv in H as (mask & s1 & _ & H).
  apply bind_Ok_inv in H as ([] & s2 & _ & H).
  unfold ret in H. by injection H as <- _.
Qed.

(** With a supported LOD mode and a bound sampler, [false] is returned
    only from the failed coordinate load. *)
Lemma smp_Ok_false a sampler s s' :
  lod_supported (Smp.lod_mode a) →
  sampler_bound env v a sampler →
  smp env v a s = Ok false s' →
  ∃ fmt, selects_format a fmt
    ∧ smp_loaded_coord env v a sampler fmt s = spv.NoResult
    ∧ s' = push (ELogError "Coord not loaded" []) (smp_after_load env v a sampler fmt s).
Proof.
  intros Hlod Hbound Hrun.
  destruct (smp_Ok_format a sampler s false s' Hlod Hbound Hrun) as [fmt Hfmt].
  exists fmt. split; [exact Hfmt|].
  rewrite (smp_runs_to_coord_load env v a sampler fmt s Hlod Hbound Hfmt) in Hrun.
  destruct (smp_loaded_coord env v a sampler fmt s =? spv.NoResult) eqn:Hc.
  - apply Z.eqb_eq in Hc. by injection Hrun as <-.
  - apply bind_Ok_inv in Hrun as (cd & s0 & _ & Hrun).
    apply bind_Ok_inv in Hrun as (ex & s1 & _ & Hrun).
    apply bind_Ok_inv in Hrun as (result & s2 & _ & Hrun).
    by apply smp_store_true in Hrun.
Qed.

(** What a run that returned [true] after the fetch left behind. *)
Lemma smp_Ok_true_trace a sampler s s' :
  lod_supported (Smp.lod_mode a) →
  sampler_bound env v a sampler →
  smp env v a s = Ok true s' →
  ∃ fmt result mask s2,
    s' = push (if sb_mode_stores (Smp.sb_mode a)
               then EStore (smp_dest env a sampler fmt) result mask
               else ELogError "Unsupported sb_mode: {}" [Smp.sb_mode a]) s2
    ∧ (∃ op operands,
         sample_insts (trace s2) =
           spv.InstOp result op (type_f32_v 4) operands :: sample_insts (trace s))
    ∧ stores (trace s2) = stores (trace s)
    ∧ conversions (trace s2) = conversions (trace s)
    ∧ unpacks (trace s2) = unpacks (trace s)
    ∧ errors (trace s2) = errors (trace s).
Proof.
  intros Hlod Hbound Hrun.
  destruct (smp_Ok_true_stages env v a sampler s s' Hlod Hbound Hrun)
    as (fmt & cd & s0 & ex & s1 & result & s2 & mask
        & _ & _ & Hcd & Hex & Hfetch & _ & ->).
  apply smp_coord_Ok in Hcd as (Hs0 & Hst0 & Hcv0 & Hu0 & He0).
  apply smp_extras_Ok in Hex as (Hs1 & Hst1 & Hcv1 & Hu1 & He1 & Hextra).
  assert (Hsamples : samples (Smp.lod_mode a) ex.1).
  { unfold samples. destruct (decide (ex.1 = spv.NoResult)); [by left|right; auto]. }
  apply do_fetch_texture_f32_Ok in Hfetch as (Hs2 & Hst2 & Hcv2 & Hu2 & He2);
    [|exact Hsamples].
  exists fmt, result, mask, s2. split; [reflexivity|].
  rewrite Hst2, Hcv2, Hu2, He2, Hst1, Hcv1, Hu1, He1, Hst0, Hcv0, Hu0, He0.
  split; [|done].
  destruct Hs2 as (op & operands & Hs2). exists op, operands.
  by rewrite Hs2, Hs1, Hs0.
Qed.
End Runs.

(** ** Further properties of [smp] *)

(** X1.  A run of [smp] that returns [true] after the fetch has appended
    exactly one sampling instruction, and what it stores, for a sideband
    mode of 0, 1 or 3, is the result id of that instruction: the branch of
    [do_fetch_texture] that leaves [image_sample] at [spv::NoResult] is
    never taken from [smp]. *)
Theorem smp_stores_its_one_sample (env : Collaborators) (v : Visitor) (a : Smp.t)
    (sampler : SamplerInfo.t) (s s' : TState) :
  lod_supported (Smp.lod_mode a) →
  sampler_bound env v a sampler →
  smp env v a s = Ok true s' →
  ∃ result op operands,
    sample_insts (trace s') =
      spv.InstOp result op (type_f32_v 4) operands :: sample_insts (trace s)
    ∧ (sb_mode_stores (Smp.sb_mode a) = true →
       ∃ fmt mask,
         stores (trace s') = (smp_dest env a sampler fmt, result, mask) :: stores (trace s)).
Proof.
  intros Hlod Hbound Hrun.
  destruct (smp_Ok_true_trace env v a sampler s s' Hlod Hbound Hrun)
    as (fmt & result & mask & s2 & -> & (op & operands & Hs) & Hst & _).
  exists result, op, operands. split.
  - destruct (sb_mode_stores (Smp.sb_mode a)); simpl; exact Hs.
  - intros ->. exists fmt, mask. simpl. by rewrite Hst.
Qed.

Lemma smp_stores_its_one_sample_witness :
  ∃ result op operands,
    sample_insts (trace (run_state (smp demo_env demo_visitor (demo_smp 0 2 3 1 1 5) demo_state)))
      = spv.InstOp result op (type_f32_v 4) operands :: sample_insts (trace demo_state)
    ∧ (sb_mode_stores (Smp.sb_mode (demo_smp 0 2 3 1 1 5)) = true →
       ∃ fmt mask,
         stores (trace (run_state (smp demo_env demo_visitor (demo_smp 0 2 3 1 1 5) demo_state)))
           = (smp_dest demo_env (demo_smp 0 2 3 1 1 5) (SamplerInfo.mk 40 F32 4) fmt,
              result, mask) :: stores (trace demo_state)).
Proof.
  apply (smp_stores_its_one_sample demo_env demo_visitor (demo_smp 0 2 3 1 1 5)
           (SamplerInfo.mk 40 F32 4) demo_state).
  - right; right; reflexivity.
  - vm_compute; reflexivity.
  - vm_compute; reflexivity.
Defined.

(** X3.  A sideband mode other than 0, 1 and 3 is only noticed after the
    fetch: the sampling instruction has been appended, the last thing done
    is the error message, nothing is stored, and the handler returns
    [true]. *)
Theorem smp_unsupported_sb_mode (env : Collaborators) (v : Visitor) (a : Smp.t)
    (sampler : SamplerInfo.t) (fmt : DataType) (s : TState) (b : bool) (s' : TState) :
  lod_supported (Smp.lod_mode a) →
  sampler_bound env v a sampler →
  selects_format a fmt →
  smp_loaded_coord env v a sampler fmt s ≠ spv.NoResult →
  sb_mode_stores (Smp.sb_mode a) = false →
  smp env v a s = Ok b s' →
  b = true
  ∧ (∃ s2, s' = push (ELogError "Unsupported sb_mode: {}" [Smp.sb_mode a]) s2)
  ∧ errors (trace s') = "Unsupported sb_mode: {}"%string :: errors (trace s)
  ∧ stores (trace s') = stores (trace s)
  ∧ length (sample_insts (trace s')) = S (length (sample_insts (trace s))).
Proof.
  intros Hlod Hbound Hfmt Hcoord Hsb Hrun.
  destruct b.
  - split; [done|].
    destruct (smp_Ok_true_trace env v a sampler s s' Hlod Hbound Hrun)
      as (fmt' & result & mask & s2 & -> & (op & operands & Hs) & Hst & _ & _ & He).
    rewrite Hsb. simpl. rewrite Hs, Hst, He. simpl.
    split; [by exists s2|done].
  - destruct (smp_Ok_false env v a sampler s s' Hlod Hbound Hrun)
      as (fmt' & Hfmt' & Hnone & _).
    rewrite <- (selects_format_unique a fmt fmt' Hfmt Hfmt') in Hnone. contradiction.
Qed.

Lemma smp_unsupported_sb_mode_witness :
  true = true
  ∧ (∃ s2, run_state (smp demo_env demo_visitor (demo_smp 0 1 0 2 1 5) demo_state)
           = push (ELogError "Unsupported sb_mode: {}" [2]) s2)
  ∧ errors (trace (run_state (smp demo_env demo_visitor (demo_smp 0 1 0 2 1 5) demo_state)))
    = "Unsupported sb_mode: {}"%string :: errors (trace demo_state)
  ∧ stores (trace (run_state (smp demo_env demo_visitor (demo_smp 0 1 0 2 1 5) demo_state)))
    = stores (trace demo_state)
  ∧ length (sample_insts
              (trace (run_state (smp demo_env demo_visitor (demo_smp 0 1 0 2 1 5) demo_state))))
    = S (length (sample_insts (trace demo_state))).
Proof.
  apply (smp_unsupported_sb_mode demo_env demo_visitor (demo_smp 0 1 0 2 1 5)
           (SamplerInfo.mk 40 F32 4) F32 demo_state).
  - left; reflexivity.
  - vm_compute; reflexivity.
  - split; [simpl; lia | reflexivity].
  - vm_compute; discriminate.
  - reflexivity.
  - vm_compute; reflexivity.
Defined.

(** X4.  Whatever [smp] is given, and however it returns, it asks neither
    for an integer conversion nor for an unpacking: the fetch is always
    asked for [F32] on an [F32] coordinate. *)
Theorem smp_never_converts_or_unpacks (env : Collaborators) (v : Visitor) (a : Smp.t)
    (s : TState) (b : bool) (s' : TState) :
  smp env v a s = Ok b s' →
  conversions (trace s') = conversions (trace s)
  ∧ unpacks (trace s') = unpacks (trace s).
Proof.
  intros Hrun.
  destruct (negb (Smp.lod_mode a =? 0) && negb (Smp.lod_mode a =? 2)
            && negb (Smp.lod_mode a =? 3)) eqn:Hcheck.
  { unfold smp in Hrun. rewrite Hcheck in Hrun. revert Hrun. run.
    intros H; by injection H as <- <-. }
  pose proof (lod_check_false _ Hcheck) as Hlod.
  destruct (samplers v !! Operand.num (smp_src1 env v a)) as [sampler|] eqn:Hbound.
  - destruct b.
    + destruct (smp_Ok_true_trace env v a sampler s s' Hlod Hbound Hrun)
        as (fmt & result & mask & s2 & -> & _ & _ & Hcv & Hu & _).
      destruct (sb_mode_stores (Smp.sb_mode a)); simpl; by rewrite Hcv, Hu.
    + by destruct (smp_Ok_false env v a sampler s s' Hlod Hbound Hrun)
        as (fmt & _ & _ & ->).
  - unfold smp in Hrun. rewrite Hcheck, Hbound in Hrun. revert Hrun. run.
    intros H; by injection H as <- <-.
Qed.

Lemma smp_never_converts_or_unpacks_witness :
  conversions (trace (run_state (smp demo_env demo_visitor (demo_smp 1 0 2 0 1 6) demo_state)))
    = conversions (trace demo_state)
  ∧ unpacks (trace (run_state (smp demo_env demo_visitor (demo_smp 1 0 2 0 1 6) demo_state)))
    = unpacks (trace demo_state).
Proof.
  apply (smp_never_converts_or_unpacks demo_env demo_visitor (demo_smp 1 0 2 0 1 6)
           demo_state true).
  vm_compute; reflexivity.
Defined.

(** X10.  [smp] returns [false] from one place only: the LOD mode was a
    supported one, the sampler was bound, the format was read, and the
    coordinate load answered [spv::NoResult].  The unsupported LOD mode,
    the unbound sampler and the unsupported sideband mode all return
    [true]. *)
Theorem smp_false_only_for_coordinate (env : Collaborators) (v : Visitor) (a : Smp.t)
    (s s' : TState) :
  smp env v a s = Ok false s' →
  ∃ sampler fmt,
    lod_supported (Smp.lod_mode a)
    ∧ sampler_bound env v a sampler
    ∧ selects_format a fmt
    ∧ smp_loaded_coord env v a sampler fmt s = spv.NoResult
    ∧ s' = push (ELogError "Coord not loaded" []) (smp_after_load env v a sampler fmt s).
Proof.
  intros Hrun.
  destruct (negb (Smp.lod_mode a =? 0) && negb (Smp.lod_mode a =? 2)
            && negb (Smp.lod_mode a =? 3)) eqn:Hcheck.
  { unfold smp in Hrun. rewrite Hcheck in Hrun. revert Hrun. run. discriminate. }
  pose proof (lod_check_false _ Hcheck) as Hlod.
  destruct (samplers v !! Operand.num (smp_src1 env v a)) as [sampler|] eqn:Hbound.
  - destruct (smp_Ok_false env v a sampler s s' Hlod Hbound Hrun)
      as (fmt & Hfmt & Hnone & Hs').
    by exists sampler, fmt.
  - unfold smp in Hrun. rewrite Hcheck, Hbound in Hrun. revert Hrun. run. discriminate.
Qed.

Lemma smp_false_only_for_coordinate_witness :
  ∃ sampler fmt,
    lod_supported (Smp.lod_mode (demo_smp 0 1 0 0 127 5))
    ∧ sampler_bound demo_env demo_visitor (demo_smp 0 1 0 0 127 5) sampler
    ∧ selects_format (demo_smp 0 1 0 0 127 5) fmt
    ∧ smp_loaded_coord demo_env demo_visitor (demo_smp 0 1 0 0 127 5) sampler fmt demo_state
      = spv.NoResult
    ∧ run_state (smp demo_env demo_visitor (demo_smp 0 1 0 0 127 5) demo_state)
      = push (ELogError "Coord not loaded" [])
          (smp_after_load demo_env demo_visitor (demo_smp 0 1 0 0 127 5) sampler fmt demo_state).
Proof.
  apply (smp_false_only_for_coordinate demo_env demo_visitor (demo_smp 0 1 0 0 127 5)
           demo_state).
  vm_compute; reflexivity.
Defined.

Section ExtrasFacts.
Context (env : Collaborators) (v : Visitor).

(** The first extra is [spv::NoResult] or what a load of source 2 at
    offset 0 answered. *)
Lemma smp_extras_first a dim s ex s' :
  smp_extras env v a dim s = Ok ex s' →
  ex.1 = spv.NoResult
  ∨ ∃ st mask, ex.1 = load_result env st (smp_src2 env v a) mask 0.
Proof.
  unfold smp_extras.
  destruct (Smp.lod_mode a) as [|[[p|p|]|[p|p|]|]|p]; simpl;
    try (run; intros H; injection H as <- <-; by left).
  - destruct dim as [|[[p|p|]|[p|p|]|]|p]; run; intros H; injection H as <- <-;
      try (by left); right; by eexists _, _.
  - run. intros H; injection H as <- <-. right; by eexists _, _.
Qed.

(** Without an LOD operand, and outside the projective mode, the sampling
    stage emits the implicit-LOD sample. *)
Lemma do_fetch_texture_sample_implicit tex coord_id lod_mode extra2 s :
  lod_mode ≠ 4 →
  do_fetch_texture_sample tex coord_id lod_mode spv.NoResult extra2 s =
    Ok (next_id s + 1)
      (push (EInst (spv.InstOp (next_id s + 1) spv.OpImageSampleImplicitLod
                      (type_f32_v 4) [next_id s; coord_id]))
         (bump (push (EInst (spv.InstLoad (next_id s) tex)) (bump s)))).
Proof.
  intros Hlod. unfold do_fetch_texture_sample. simpl.
  apply Z.eqb_neq in Hlod. by rewrite Hlod.
Qed.
End ExtrasFacts.

(** X2.  When the operand model cannot load source 2, an instruction in
    REPLACE or GRADIENT mode is still translated: its first extra is
    [spv::NoResult], so [do_fetch_texture] takes the branch without LOD
    operand and the sample emitted is the plain implicit-LOD one; no error
    is logged for it. *)
Theorem smp_lod_operand_not_loaded (env : Collaborators) (v : Visitor) (a : Smp.t)
    (sampler : SamplerInfo.t) (s s' : TState) :
  Smp.lod_mode a = 2 ∨ Smp.lod_mode a = 3 →
  sampler_bound env v a sampler →
  (∀ st mask, load_result env st (smp_src2 env v a) mask 0 = spv.NoResult) →
  sb_mode_stores (Smp.sb_mode a) = true →
  smp env v a s = Ok true s' →
  sample_ops (trace s') = spv.OpImageSampleImplicitLod :: sample_ops (trace s)
  ∧ errors (trace s') = errors (trace s).
Proof.
  intros Hmode Hbound Hfail Hsb Hrun.
  assert (Hlod : lod_supported (Smp.lod_mode a)) by (right; exact Hmode).
  destruct (smp_Ok_true_stages env v a sampler s s' Hlod Hbound Hrun)
    as (fmt & cd & s0 & ex & s1 & result & s2 & mask
        & _ & _ & Hcd & Hex & Hfetch & _ & ->).
  rewrite Hsb. simpl.
  apply smp_coord_Ok in Hcd as (Hs0 & _ & _ & _ & He0).
  assert (Hnone : ex.1 = spv.NoResult).
  { destruct (smp_extras_first env v a cd.2 s0 ex s1 Hex) as [H | (st & m & H)];
      [exact H | by rewrite H, Hfail]. }
  apply smp_extras_Ok in Hex as (Hs1 & _ & _ & _ & He1 & _).
  apply do_fetch_texture_Ok in Hfetch
    as (coord_id & s1c & image_sample & s2' & Hcoord & _ & Hsample & [-> ->]).
  apply do_fetch_texture_coord_f32_quiet in Hcoord as (_ & He1c & Hs1c & _).
  rewrite Hnone, do_fetch_texture_sample_implicit in Hsample
    by (destruct Hmode as [-> | ->]; done).
  injection Hsample as <- <-.
  unfold sample_ops. simpl. rewrite Hs1c, Hs1, Hs0, He1c, He1, He0. done.
Qed.

Lemma smp_lod_operand_not_loaded_witness :
  sample_ops (trace (run_state (smp demo_env demo_visitor (demo_smp_src2 1 2 127) demo_state)))
    = spv.OpImageSampleImplicitLod :: sample_ops (trace demo_state)
  ∧ errors (trace (run_state (smp demo_env demo_visitor (demo_smp_src2 1 2 127) demo_state)))
    = errors (trace demo_state).
Proof.
  apply (smp_lod_operand_not_loaded demo_env demo_visitor (demo_smp_src2 1 2 127)
           (SamplerInfo.mk 40 F32 4) demo_state).
  - left; reflexivity.
  - vm_compute; reflexivity.
  - intros st mask. reflexivity.
  - reflexivity.
  - vm_compute; reflexivity.
Defined.

(** ** Further properties of [do_fetch_texture] *)

(** X9.  With an LOD operand and a LOD mode other than 2 and 3,
    [do_fetch_texture] emits no sampling instruction: its result is
    [spv::NoResult], or, for an integer destination type, what
    [utils::convert_to_int] makes of [spv::NoResult]. *)
Theorem do_fetch_texture_without_sample (env : Collaborators) (tex : spv.Id)
    (coord : Coord) (dest_type : DataType) (lod_mode : Z) (extra1 extra2 : spv.Id)
    (s : TState) (result : spv.Id) (s' : TState) :
  extra1 ≠ spv.NoResult →
  lod_mode ≠ 2 →
  lod_mode ≠ 3 →
  do_fetch_texture env tex coord dest_type lod_mode extra1 extra2 s = Ok result s' →
  sample_insts (trace s') = sample_insts (trace s)
  ∧ (is_integer_data_type dest_type = false → result = spv.NoResult)
  ∧ (is_integer_data_type dest_type = true →
     ∃ s2, s' = push (EConvertToInt spv.NoResult dest_type true result) s2).
Proof.
  intros He1 H2 H3 Hrun.
  apply do_fetch_texture_Ok in Hrun
    as (coord_id & s1 & image_sample & s2 & Hcoord & _ & Hsample & Hend).
  destruct (do_fetch_texture_coord_quiet env coord s) as (c & s1' & Hc & Hs1 & _).
  rewrite Hcoord in Hc. injection Hc as <- <-.
  apply do_fetch_texture_sample_Ok in Hsample as [_ Hnone].
  destruct Hnone as [-> ->].
  { unfold samples. intros [? | [? | ?]]; congruence. }
  destruct (is_integer_data_type dest_type).
  - subst s'. simpl. split; [exact Hs1|]. split; [done|]. intros _. by exists s1.
  - destruct Hend as [-> ->]. split; [exact Hs1|]. split; done.
Qed.

Lemma do_fetch_texture_without_sample_witness :
  sample_insts (trace (run_state (do_fetch_texture demo_env 40 (50, F32) UINT8 1 7 0 demo_state)))
    = sample_insts (trace demo_state)
  ∧ (is_integer_data_type UINT8 = false → 3000 = spv.NoResult)
  ∧ (is_integer_data_type UINT8 = true →
     ∃ s2, run_state (do_fetch_texture demo_env 40 (50, F32) UINT8 1 7 0 demo_state)
           = push (EConvertToInt spv.NoResult UINT8 true 3000) s2).
Proof.
  apply (do_fetch_texture_without_sample demo_env 40 (50, F32) UINT8 1 7 0 demo_state).
  - discriminate.
  - discriminate.
  - discriminate.
  - vm_compute; reflexivity.
Defined.

(** ** Further properties of [do_texture_queries] *)

Section QueryFacts.
Context (env : Collaborators).

(** Without an LOD operand the sample is projective for mode 4 and plain
    otherwise. *)
Lemma do_fetch_texture_no_operand tex coord dest_type lod_mode extra2 s result s' :
  do_fetch_texture env tex coord dest_type lod_mode spv.NoResult extra2 s = Ok result s' →
  sample_ops (trace s') =
    (if lod_mode =? 4 then spv.OpImageSampleProjImplicitLod
     else spv.OpImageSampleImplicitLod) :: sample_ops (trace s).
Proof.
  intros Hrun.
  apply do_fetch_texture_Ok in Hrun
    as (coord_id & s1 & image_sample & s2 & Hcoord & _ & Hsample & Hend).
  destruct (do_fetch_texture_coord_quiet env coord s) as (c & s1' & Hc & Hs1 & _).
  rewrite Hcoord in Hc. injection Hc as <- <-.
  assert (Hs2 : sample_ops (trace s2) =
                  (if lod_mode =? 4 then spv.OpImageSampleProjImplicitLod
                   else spv.OpImageSampleImplicitLod) :: sample_ops (trace s)).
  { revert Hsample. unfold do_fetch_texture_sample. simpl.
    destruct (lod_mode =? 4); run; intros H; injection H as <- <-;
      unfold sample_ops; simpl; by rewrite Hs1. }
  destruct (is_integer_data_type dest_type).
  - subst s'. exact Hs2.
  - by destruct Hend as [_ ->].
Qed.

(** One query, stage by stage. *)
Lemma do_texture_query_stages store_op texture_query s store_op' s' :
  do_texture_query env store_op texture_query s = Ok store_op' s' →
  ∃ tex_coord s1 fetch_result s2 mask,
    do_fetch_texture env (TextureQuery.sampler texture_query) tex_coord
      (Operand.type store_op')
      (if 0 <=? TextureQuery.prod_pos texture_query then 4 else 0)
      0 spv.NoResult s1 = Ok fetch_result s2
    ∧ component_mask (TextureQuery.component_count texture_query) s2 = Ok mask s2
    ∧ s' = push (EStore store_op' fetch_result mask) s2
    ∧ Operand.num store_op' = TextureQuery.dest_offset texture_query
    ∧ Operand.bank store_op' = Operand.bank store_op
    ∧ Operand.swizzle store_op' = Operand.swizzle store_op
    ∧ sample_insts (trace s1) = sample_insts (trace s)
    ∧ stores (trace s1) = stores (trace s).
Proof.
  unfold do_texture_query. intros H.
  apply bind_Ok_inv in H as (r & s1 & Hr & H).
  apply bind_Ok_inv in H as (fetch_result & s2 & Hfetch & H).
  apply bind_Ok_inv in H as (mask & s3 & Hmask & H).
  pose proof (component_mask_Ok _ _ _ _ Hmask) as (-> & _ & _).
  apply bind_Ok_inv in H as ([] & s4 & Hstore & H).
  unfold store, emit in Hstore. injection Hstore as <-.
  unfold ret in H. injection H as <- <-.
  exists r.1, s1, fetch_result, s2, mask.
  assert (r.2 = (0 <=? TextureQuery.prod_pos texture_query)
          ∧ sample_insts (trace s1) = sample_insts (trace s)
          ∧ stores (trace s1) = stores (trace s)) as (Hproj & Hs1 & Hst1).
  { destruct (0 <=? TextureQuery.prod_pos texture_query);
      revert Hr; run; intros Hr; injection Hr as <- <-; by repeat split. }
  rewrite Hproj in Hfetch.
  split; [exact Hfetch|]. split; [exact Hmask|]. split; [reflexivity|].
  split; [reflexivity|].
  split; [by destruct (decide (_ = UNK))|].
  split; [by destruct (decide (_ = UNK))|].
  by split.
Qed.

(** A query reads of [store_op] its bank and its swizzle only. *)
Lemma do_texture_query_place store_op store_op2 texture_query s :
  Operand.bank store_op = Operand.bank store_op2 →
  Operand.swizzle store_op = Operand.swizzle store_op2 →
  do_texture_query env store_op texture_query s =
    do_texture_query env store_op2 texture_query s.
Proof.
  destruct store_op, store_op2. simpl. intros -> ->.
  unfold do_texture_query. simpl.
  by destruct (decide (TextureQuery.store_type texture_query = UNK)).
Qed.

Lemma do_texture_queries_from_place texture_queries :
  ∀ store_op store_op2 s,
    Operand.bank store_op = Operand.bank store_op2 →
    Operand.swizzle store_op = Operand.swizzle store_op2 →
    do_texture_queries_from env store_op texture_queries s =
      do_texture_queries_from env store_op2 texture_queries s.
Proof.
  induction texture_queries as [|q qs IH]; intros op op2 s Hb Hw; [done|].
  simpl. unfold bind.
  by rewrite (do_texture_query_place op op2 q s Hb Hw).
Qed.

Lemma do_texture_queries_from_app qs1 qs2 :
  ∀ store_op s,
    do_texture_queries_from env store_op (qs1 ++ qs2) s =
      bind (do_texture_queries_from env store_op qs1)
        (λ _, do_texture_queries_from env store_op qs2) s.
Proof.
  induction qs1 as [|q qs IH]; intros op s; [reflexivity|].
  simpl. unfold bind.
  destruct (do_texture_query env op q s) as [op1 s1|f] eqn:Hq; [|done].
  rewrite IH. unfold bind.
  destruct (do_texture_queries_from env op1 qs s1) as [[] s2|f]; [|done].
  apply do_texture_query_stages in Hq
    as (_ & _ & _ & _ & _ & _ & _ & _ & _ & Hb & Hw & _).
  by apply do_texture_queries_from_place.
Qed.

(** The stores and the sampling opcodes of a list of queries. *)
Lemma do_texture_queries_from_trace texture_queries :
  ∀ store_op s s',
    do_texture_queries_from env store_op texture_queries s = Ok tt s' →
    sample_ops (trace s') =
      rev (map query_sample_op texture_queries) ++ sample_ops (trace s)
    ∧ store_places (trace s') =
        rev (map (λ q, (Operand.bank store_op, TextureQuery.dest_offset q,
                        Operand.swizzle store_op)) texture_queries)
          ++ store_places (trace s)
    ∧ (Forall (λ q, 0 ≤ TextureQuery.component_count q < 32) texture_queries
       ∧ store_masks (trace s') =
           rev (map (λ q, (((1 ≪ TextureQuery.component_count q) - 1) `mod` 2 ^ 32)
                            `mod` 2 ^ 8) texture_queries)
             ++ store_masks (trace s)).
Proof.
  induction texture_queries as [|q qs IH]; intros op s s' Hrun.
  - injection Hrun as <-. by repeat split.
  - simpl in Hrun. apply bind_Ok_inv in Hrun as (op1 & s1 & Hq & Hrest).
    apply do_texture_query_stages in Hq
      as (tc & s0 & r & s2 & mask & Hfetch & Hmask & -> & Hn & Hb & Hw & Hs0 & Hst0).
    apply component_mask_Ok in Hmask as (_ & Hrange & ->).
    pose proof (do_fetch_texture_no_operand _ _ _ _ _ _ _ _ Hfetch) as Hops.
    apply do_fetch_texture_effects in Hfetch as [Hst2 _].
    destruct (IH _ _ _ Hrest) as (IHops & IHplaces & IHcounts & IHmasks).
    split; [|split; [|split]].
    + rewrite IHops.
      change (sample_ops (trace (push ?e s2))) with (sample_ops (trace s2)).
      rewrite Hops. simpl. rewrite <- app_assoc. simpl.
      unfold query_sample_op, sample_ops. rewrite Hs0.
      by destruct (0 <=? TextureQuery.prod_pos q).
    + rewrite IHplaces, Hb, Hw. simpl. rewrite <- app_assoc. simpl.
      unfold store_places. simpl. by rewrite Hst2, Hst0, Hn, Hb, Hw.
    + by constructor.
    + rewrite IHmasks. simpl. rewrite <- app_assoc. simpl.
      unfold store_masks. simpl. by rewrite Hst2, Hst0.
Qed.
End QueryFacts.

Lemma narrowed_mask_spec component_count :
  0 ≤ component_count < 32 →
  (((1 ≪ component_count) - 1) `mod` 2 ^ 32) `mod` 2 ^ 8 = narrowed_mask component_count.
Proof.
  intros Hrange.
  assert (∃ n : nat, component_count = Z.of_nat n ∧ (n < 32)%nat) as (n & -> & Hn).
  { exists (Z.to_nat component_count). lia. }
  do 32 (destruct n as [|n]; [reflexivity|]). lia.
Qed.

(** X5.  The write mask is [(1U << component_count) - 1] narrowed to a
    [uint8_t], and nothing holds it to four lanes: for a component count
    of 0 to 31 it is [2 ^ min (count, 8) - 1], that is [(1 << count) - 1]
    up to 8 components (31 for 5, 255 for 8) and 255 from there on, in
    [smp] and in [do_texture_queries] alike. *)
Theorem write_mask_is_narrowed_not_clamped (env : Collaborators) (v : Visitor) :
  (∀ a sampler s s',
     lod_supported (Smp.lod_mode a) →
     sampler_bound env v a sampler →
     0 ≤ SamplerInfo.component_count sampler < 32 →
     sb_mode_stores (Smp.sb_mode a) = true →
     smp env v a s = Ok true s' →
     store_masks (trace s') =
       narrowed_mask (SamplerInfo.component_count sampler) :: store_masks (trace s))
  ∧ (∀ texture_queries s s',
       Forall (λ q, 0 ≤ TextureQuery.component_count q < 32) texture_queries →
       do_texture_queries env texture_queries s = Ok tt s' →
       store_masks (trace s') =
         rev (map (λ q, narrowed_mask (TextureQuery.component_count q)) texture_queries)
           ++ store_masks (trace s)).
Proof.
  split.
  - intros a sampler s s' Hlod Hbound Hcount Hsb Hrun.
    destruct (smp_Ok_true_stages env v a sampler s s' Hlod Hbound Hrun)
      as (fmt & cd & s0 & ex & s1 & result & s2 & mask
          & _ & _ & Hcd & Hex & Hfetch & Hmask & ->).
    apply component_mask_Ok in Hmask as (_ & _ & ->).
    rewrite (narrowed_mask_spec _ Hcount), Hsb.
    apply smp_coord_Ok in Hcd as (_ & Hst0 & _).
    apply smp_extras_Ok in Hex as (_ & Hst1 & _).
    apply do_fetch_texture_effects in Hfetch as [Hst2 _].
    unfold store_masks. simpl. by rewrite Hst2, Hst1, Hst0.
  - intros qs s s' Hcounts Hrun.
    destruct (do_texture_queries_from_trace env qs _ s s' Hrun) as (_ & _ & _ & ->).
    f_equal. f_equal. apply map_ext_Forall.
    eapply Forall_impl; [exact Hcounts|]. intros q Hq. by apply narrowed_mask_spec.
Qed.

Lemma write_mask_is_narrowed_not_clamped_witness :
  store_masks
    (trace (run_state (do_texture_queries demo_env
                         [demo_query F32 F32 (-1) 5; demo_query F32 F32 (-1) 8;
                          demo_query F32 F32 (-1) 9; demo_query F32 F32 (-1) 0]
                         demo_state)))
  = [0; 255; 255; 31] ++ store_masks (trace demo_state).
Proof.
  refine (proj2 (write_mask_is_narrowed_not_clamped demo_env demo_visitor)
            [demo_query F32 F32 (-1) 5; demo_query F32 F32 (-1) 8;
             demo_query F32 F32 (-1) 9; demo_query F32 F32 (-1) 0]
            demo_state _ _ _).
  - repeat constructor; simpl; lia.
  - vm_compute; reflexivity.
Defined.

(** X6.  Queries are translated one by one, and none depends on the ones
    before it: translating a list is translating a first part and then the
    rest.  ([store_op] lives across the iterations of the loop, but each
    iteration overwrites its type and its number before they are read.) *)
Theorem do_texture_queries_app (env : Collaborators)
    (first rest : list TextureQuery.t) (s : TState) :
  do_texture_queries env (first ++ rest) s =
    bind (do_texture_queries env first) (λ _, do_texture_queries env rest) s.
Proof. unfold do_texture_queries. apply do_texture_queries_from_app. Qed.

(** X7.  Every query is translated to exactly one sampling instruction,
    never an explicit-LOD one: the projective implicit-LOD sample when
    [prod_pos] is not negative, the plain implicit-LOD sample otherwise. *)
Theorem do_texture_queries_sample_ops (env : Collaborators)
    (texture_queries : list TextureQuery.t) (s s' : TState) :
  do_texture_queries env texture_queries s = Ok tt s' →
  sample_ops (trace s') = rev (map query_sample_op texture_queries) ++ sample_ops (trace s).
Proof.
  intros Hrun. by destruct (do_texture_queries_from_trace env _ _ s s' Hrun) as (-> & _).
Qed.

Lemma do_texture_queries_sample_ops_witness :
  sample_ops
    (trace (run_state (do_texture_queries demo_env
                         [demo_query UINT8 F32 (-1) 3; demo_query F16 F32 0 4] demo_state)))
  = [spv.OpImageSampleProjImplicitLod; spv.OpImageSampleImplicitLod]
      ++ sample_ops (trace demo_state).
Proof.
  apply (do_texture_queries_sample_ops demo_env
           [demo_query UINT8 F32 (-1) 3; demo_query F16 F32 0 4] demo_state).
  vm_compute; reflexivity.
Defined.

(** X8.  Every query is stored to the primary attribute bank, with the
    default swizzle, at the register its [dest_offset] names, one store
    per query in the order of the list. *)
Theorem do_texture_queries_store_places (env : Collaborators)
    (texture_queries : list TextureQuery.t) (s s' : TState) :
  do_texture_queries env texture_queries s = Ok tt s' →
  store_places (trace s') =
    rev (map (λ q, (PRIMATTR, TextureQuery.dest_offset q, SWIZZLE_CHANNEL_4_DEFAULT))
           texture_queries)
      ++ store_places (trace s).
Proof.
  intros Hrun.
  by destruct (do_texture_queries_from_trace env _ _ s s' Hrun) as (_ & -> & _).
Qed.

Lemma do_texture_queries_store_places_witness :
  store_places
    (trace (run_state (do_texture_queries demo_env
                         [demo_query UINT8 F32 (-1) 3;
                          TextureQuery.mk F16 F32 0 (50, F32) 40 6 4] demo_state)))
  = [(PRIMATTR, 6, SWIZZLE_CHANNEL_4_DEFAULT); (PRIMATTR, 2, SWIZZLE_CHANNEL_4_DEFAULT)]
      ++ store_places (trace demo_state).
Proof.
  apply (do_texture_queries_store_places demo_env
           [demo_query UINT8 F32 (-1) 3; TextureQuery.mk F16 F32 0 (50, F32) 40 6 4]
           demo_state).
  vm_compute; reflexivity.
Defined.

(** * Properties of the Unicorn CPU backend *)

Ltac unicorn_unfold :=
  unfold UnicornCPU.run, UnicornCPU.step, UnicornCPU.execute_instructions_no_check,
    UnicornCPU.intr_hook, UnicornCPU.trigger_breakpoint, UnicornCPU.hit_breakpoint,
    UnicornCPU.set_log_code, UnicornCPU.set_log_mem, UnicornCPU.get_log_code,
    UnicornCPU.get_log_mem, UnicornCPU.hook_add, UnicornCPU.hook_del,
    UnicornCPU.set_float_reg, UnicornCPU.get_float_reg, UnicornCPU.log_error_details,
    UnicornCPU.emu_start, UnicornCPU.stop, UnicornCPU.get_pc, UnicornCPU.is_thumb_mode,
    UnicornCPU.checked_read, UnicornCPU.checked_write, UnicornCPU.LOG,
    UnicornCPU.then_, UnicornCPU.unit_, UnicornCPU.assert_, UnicornCPU.update,
    UnicornCPU.read;
  simpl.

Ltac unicorn_cases :=
  repeat match goal with
         | |- context [if ?b then _ else _] => destruct b eqn:?; simpl; try discriminate
         | |- context [match ?o with Some _ => _ | None => _ end] =>
             destruct o eqn:?; simpl; try discriminate
         | |- context [let (_, _) := ?p in _] => destruct p; simpl
         end.

Ltac unicorn_tests :=
  repeat match goal with
         | H : negb (_ =? _) = true |- _ => apply negb_true_iff, Z.eqb_neq in H
         | H : negb (_ =? _) = false |- _ => apply negb_false_iff, Z.eqb_eq in H
         end.

(** X11.  [intr_hook] on a supervisor call: the call number is the low
    24 bits of the word four bytes before the program counter (the
    address wrapping as a [uint32_t]), [svc_called] is set, the engine is
    stopped, [did_break] is left alone and [is_inside_intr_hook] is clear
    again on return.  The Thumb reading of the call number is never taken:
    the assertion before it has ruled Thumb mode out. *)
Theorem intr_hook_svc {E : Type} (engine : UnicornCPU.Engine E)
    (m m' : UnicornCPU.Machine E) :
  UnicornCPU.intr_hook engine UnicornCPU.INT_SVC m = Some (tt, m') →
  let pc := (UnicornCPU.uc_reg_read engine (UnicornCPU.uc m) UnicornCPU.UC_ARM_REG_PC).2 in
  let word := (UnicornCPU.uc_mem_read engine (UnicornCPU.uc m) (UnicornCPU.u32 (pc - 4)) 4).2 in
  UnicornCPU.svc_called m' = true
  ∧ UnicornCPU.svc m' = Z.land word 0xffffff
  ∧ 0 ≤ UnicornCPU.svc m' < 2 ^ 24
  ∧ UnicornCPU.uc m' = (UnicornCPU.uc_emu_stop engine (UnicornCPU.uc m)).2
  ∧ UnicornCPU.did_break m' = UnicornCPU.did_break m
  ∧ UnicornCPU.is_inside_intr_hook m' = false.
Proof.
  unicorn_unfold. unicorn_cases. intros H. injection H as <-. simpl.
  repeat split; try reflexivity.
  - apply Z.land_nonneg. right. lia.
  - assert (Z.land (UnicornCPU.uc_mem_read engine (UnicornCPU.uc m)
                      (UnicornCPU.u32
                         ((UnicornCPU.uc_reg_read engine (UnicornCPU.uc m)
                             UnicornCPU.UC_ARM_REG_PC).2 - 4)) 4).2 16777215
            = Z.land (UnicornCPU.uc_mem_read engine (UnicornCPU.uc m)
                        (UnicornCPU.u32
                           ((UnicornCPU.uc_reg_read engine (UnicornCPU.uc m)
                               UnicornCPU.UC_ARM_REG_PC).2 - 4)) 4).2 (Z.ones 24)) as ->
      by reflexivity.
    rewrite Z.land_ones by lia. apply Z.mod_pos_bound. lia.
Qed.

Lemma intr_hook_svc_witness :
  let m := demo_cpu 0x81000004 0 0 in
  let m' := end_machine (UnicornCPU.intr_hook demo_engine UnicornCPU.INT_SVC m) m in
  UnicornCPU.svc_called m' = true
  ∧ UnicornCPU.svc m' = Z.land 0xef123456 0xffffff
  ∧ 0 ≤ UnicornCPU.svc m' < 2 ^ 24
  ∧ UnicornCPU.uc m' = (UnicornCPU.uc_emu_stop demo_engine (UnicornCPU.uc m)).2
  ∧ UnicornCPU.did_break m' = UnicornCPU.did_break m
  ∧ UnicornCPU.is_inside_intr_hook m' = false.
Proof.
  apply (intr_hook_svc demo_engine (demo_cpu 0x81000004 0 0)).
  vm_compute; reflexivity.
Defined.

(** X12.  A breakpoint, met by the engine ([intr_hook] on [INT_BKPT]) or
    asked for ([trigger_breakpoint]), stops the engine and is reported by
    [hit_breakpoint]; the supervisor-call members are left alone. *)
Theorem breakpoint_is_reported {E : Type} (engine : UnicornCPU.Engine E)
    (m m' : UnicornCPU.Machine E) :
  UnicornCPU.intr_hook engine UnicornCPU.INT_BKPT m = Some (tt, m')
  ∨ UnicornCPU.trigger_breakpoint engine m = Some (tt, m') →
  fst <$> UnicornCPU.hit_breakpoint m' = Some true
  ∧ UnicornCPU.uc m' = (UnicornCPU.uc_emu_stop engine (UnicornCPU.uc m)).2
  ∧ UnicornCPU.svc_called m' = UnicornCPU.svc_called m
  ∧ UnicornCPU.svc m' = UnicornCPU.svc m.
Proof.
  intros [H | H]; revert H; unicorn_unfold; unicorn_cases;
    intros H; injection H as <-; by repeat split.
Qed.

Lemma breakpoint_is_reported_witness :
  let m := demo_cpu 0x81000004 0 0 in
  let m' := end_machine (UnicornCPU.trigger_breakpoint demo_engine m) m in
  fst <$> UnicornCPU.hit_breakpoint m' = Some true
  ∧ UnicornCPU.uc m' = (UnicornCPU.uc_emu_stop demo_engine (UnicornCPU.uc m)).2
  ∧ UnicornCPU.svc_called m' = UnicornCPU.svc_called m
  ∧ UnicornCPU.svc m' = UnicornCPU.svc m.
Proof.
  apply (breakpoint_is_reported demo_engine (demo_cpu 0x81000004 0 0)).
  right. vm_compute; reflexivity.
Defined.

Section HookFacts.
Context {E : Type} (engine : UnicornCPU.Engine E).

Lemma set_log_code_state (log : bool) (m m' : UnicornCPU.Machine E) :
  handles_nonzero engine →
  UnicornCPU.set_log_code engine log m = Some (tt, m') →
  negb (UnicornCPU.code_hook_handle m' =? 0) = log.
Proof.
  intros Hnz. unicorn_unfold.
  destruct (UnicornCPU.code_hook_handle m =? 0) eqn:Hh; destruct log; simpl;
    unicorn_cases; intros H; injection H as <-; simpl; rewrite ?Hh; try done.
  pose proof (Hnz (UnicornCPU.uc m) UnicornCPU.UC_HOOK_CODE) as Hne.
  apply Z.eqb_neq in Hne. by rewrite Hne.
Qed.

Lemma set_log_code_same (log : bool) (m : UnicornCPU.Machine E) :
  negb (UnicornCPU.code_hook_handle m =? 0) = log →
  UnicornCPU.set_log_code engine log m =
    Some (tt, UnicornCPU.with_log (UnicornCPU.TRACE, "get_log_code")
                (UnicornCPU.with_log (UnicornCPU.TRACE, "set_log_code") m)).
Proof. unicorn_unfold. intros ->. by rewrite Bool.eqb_reflx. Qed.

Lemma set_log_mem_state (log : bool) (m m' : UnicornCPU.Machine E) :
  handles_nonzero engine →
  memory_hooks_agree m →
  UnicornCPU.set_log_mem engine log m = Some (tt, m') →
  negb (UnicornCPU.memory_read_hook_handle m' =? 0) = log
  ∧ negb (UnicornCPU.memory_write_hook_handle m' =? 0) = log.
Proof.
  intros Hnz. unfold memory_hooks_agree. unicorn_unfold.
  destruct (UnicornCPU.memory_read_hook_handle m =? 0) eqn:Hr;
    destruct (UnicornCPU.memory_write_hook_handle m =? 0) eqn:Hw;
    try discriminate; intros _; destruct log; simpl;
    unicorn_cases; intros H; injection H as <-; simpl; rewrite ?Hr, ?Hw; try done.
  pose proof (Hnz (UnicornCPU.uc m) UnicornCPU.UC_HOOK_MEM_READ) as Hne1.
  pose proof (Hnz (UnicornCPU.uc_hook_add engine (UnicornCPU.uc m)
                     UnicornCPU.UC_HOOK_MEM_READ).2 UnicornCPU.UC_HOOK_MEM_WRITE) as Hne2.
  apply Z.eqb_neq in Hne1, Hne2. by rewrite Hne1, Hne2.
Qed.

Lemma set_log_mem_same (log : bool) (m : UnicornCPU.Machine E) :
  negb (UnicornCPU.memory_read_hook_handle m =? 0)
  && negb (UnicornCPU.memory_write_hook_handle m =? 0) = log →
  UnicornCPU.set_log_mem engine log m =
    Some (tt, UnicornCPU.with_log (UnicornCPU.TRACE, "get_log_mem")
                (UnicornCPU.with_log (UnicornCPU.TRACE, "set_log_mem") m)).
Proof. unicorn_unfold. intros ->. by rewrite Bool.eqb_reflx. Qed.
End HookFacts.

(** X13.  [set_log_code] and [get_log_code] agree: once [set_log_code
    (log)] has returned, [get_log_code] answers [log], and asking for the
    same setting again touches neither the engine nor the handle.  The
    handle doubles as the flag, so this needs the engine to hand out
    handles other than zero. *)
Theorem set_log_code_then_get {E : Type} (engine : UnicornCPU.Engine E) (log : bool)
    (m m' : UnicornCPU.Machine E) :
  handles_nonzero engine →
  UnicornCPU.set_log_code engine log m = Some (tt, m') →
  fst <$> UnicornCPU.get_log_code m' = Some log
  ∧ ∃ m'', UnicornCPU.set_log_code engine log m' = Some (tt, m'')
           ∧ UnicornCPU.uc m'' = UnicornCPU.uc m'
           ∧ UnicornCPU.code_hook_handle m'' = UnicornCPU.code_hook_handle m'.
Proof.
  intros Hnz Hset.
  pose proof (set_log_code_state engine log m m' Hnz Hset) as Hstate.
  split.
  - unicorn_unfold. by rewrite Hstate.
  - rewrite (set_log_code_same engine log m' Hstate). by eexists.
Qed.

Lemma handles_nonzero_demo : handles_nonzero demo_engine.
Proof. intros e type. simpl. lia. Qed.

Lemma set_log_code_then_get_witness :
  let m' := end_machine (UnicornCPU.set_log_code demo_engine true (demo_cpu 0 0 0))
              (demo_cpu 0 0 0) in
  fst <$> UnicornCPU.get_log_code m' = Some true
  ∧ ∃ m'', UnicornCPU.set_log_code demo_engine true m' = Some (tt, m'')
           ∧ UnicornCPU.uc m'' = UnicornCPU.uc m'
           ∧ UnicornCPU.code_hook_handle m'' = UnicornCPU.code_hook_handle m'.
Proof.
  apply (set_log_code_then_get demo_engine true (demo_cpu 0 0 0)).
  - exact handles_nonzero_demo.
  - vm_compute; reflexivity.
Defined.

(** X14.  [set_log_mem] installs or removes the read hook and the write
    hook together: from a machine where both are installed or neither, it
    ends in one where both are installed when [log] is set and neither
    when it is not, and [get_log_mem] answers [log].  Asking for the same
    setting again touches nothing but the log. *)
Theorem set_log_mem_then_get {E : Type} (engine : UnicornCPU.Engine E) (log : bool)
    (m m' : UnicornCPU.Machine E) :
  handles_nonzero engine →
  memory_hooks_agree m →
  UnicornCPU.set_log_mem engine log m = Some (tt, m') →
  memory_hooks_agree m'
  ∧ negb (UnicornCPU.memory_read_hook_handle m' =? 0) = log
  ∧ fst <$> UnicornCPU.get_log_mem m' = Some log
  ∧ ∃ m'', UnicornCPU.set_log_mem engine log m' = Some (tt, m'')
           ∧ UnicornCPU.uc m'' = UnicornCPU.uc m'
           ∧ UnicornCPU.memory_read_hook_handle m'' = UnicornCPU.memory_read_hook_handle m'
           ∧ UnicornCPU.memory_write_hook_handle m'' = UnicornCPU.memory_write_hook_handle m'.
Proof.
  intros Hnz Hagree Hset.
  destruct (set_log_mem_state engine log m m' Hnz Hagree Hset) as [Hr Hw].
  assert (Hboth : negb (UnicornCPU.memory_read_hook_handle m' =? 0)
                  && negb (UnicornCPU.memory_write_hook_handle m' =? 0) = log)
    by (rewrite Hr, Hw; by destruct log).
  split.
  { unfold memory_hooks_agree.
    destruct (UnicornCPU.memory_read_hook_handle m' =? 0),
      (UnicornCPU.memory_write_hook_handle m' =? 0), log; simpl in *; congruence. }
  split; [exact Hr|]. split.
  - unicorn_unfold. by rewrite Hboth.
  - rewrite (set_log_mem_same engine log m' Hboth). by eexists.
Qed.

Lemma set_log_mem_then_get_witness :
  let m' := end_machine (UnicornCPU.set_log_mem demo_engine true (demo_cpu 0 0 0))
              (demo_cpu 0 0 0) in
  memory_hooks_agree m'
  ∧ negb (UnicornCPU.memory_read_hook_handle m' =? 0) = true
  ∧ fst <$> UnicornCPU.get_log_mem m' = Some true
  ∧ ∃ m'', UnicornCPU.set_log_mem demo_engine true m' = Some (tt, m'')
           ∧ UnicornCPU.uc m'' = UnicornCPU.uc m'
           ∧ UnicornCPU.memory_read_hook_handle m'' = UnicornCPU.memory_read_hook_handle m'
           ∧ UnicornCPU.memory_write_hook_handle m'' = UnicornCPU.memory_write_hook_handle m'.
Proof.
  apply (set_log_mem_then_get demo_engine true (demo_cpu 0 0 0)).
  - exact handles_nonzero_demo.
  - reflexivity.
  - vm_compute; reflexivity.
Defined.

(** X15.  [run] and [step] start the engine at the program counter, bit 0
    set in Thumb mode, with [did_break] and [svc_called] cleared, [run]
    without a count of instructions and [step] for one.  When the engine
    reports an error they return -1.  Otherwise they return 1 when the
    program counter the engine stopped at, tagged the same way, lies from
    [halt_instruction_pc] to [halt_instruction_pc + 4] (a [uint32_t] sum)
    and 0 when it does not, and the machine is as the engine left it. *)
Theorem run_and_step_contract {E : Type} (engine : UnicornCPU.Engine E)
    (m : UnicornCPU.Machine E) (r : Z) (m' : UnicornCPU.Machine E) :
  let contract first_line count :=
    let m0 := run_start first_line m in
    let started :=
      UnicornCPU.uc_emu_start engine m0 (tagged_pc engine (UnicornCPU.uc m)) 0 0 count in
    UnicornCPU.uc m0 = UnicornCPU.uc m
    ∧ UnicornCPU.did_break m0 = false
    ∧ UnicornCPU.svc_called m0 = false
    ∧ (started.1 ≠ UnicornCPU.UC_ERR_OK → r = -1)
    ∧ (started.1 = UnicornCPU.UC_ERR_OK →
       r = UnicornCPU.at_halt (UnicornCPU.halt_instruction_pc started.2)
             (tagged_pc engine (UnicornCPU.uc started.2))
       ∧ UnicornCPU.uc m' = UnicornCPU.uc started.2
       ∧ UnicornCPU.did_break m' = UnicornCPU.did_break started.2
       ∧ UnicornCPU.svc_called m' = UnicornCPU.svc_called started.2
       ∧ UnicornCPU.svc m' = UnicornCPU.svc started.2) in
  (UnicornCPU.run engine m = Some (r, m') → contract "UNICORN RUN"%string 0)
  ∧ (UnicornCPU.step engine m = Some (r, m') → contract "STEP, GET PC"%string 1).
Proof.
  cbv zeta. unfold tagged_pc, run_start. split; unicorn_unfold; unicorn_cases;
    intros H; injection H as <- <-; simpl; unicorn_tests;
    repeat split; try reflexivity; congruence.
Qed.

Lemma run_and_step_contract_witness :
  let m := demo_cpu 0x81000000 16 0x81000004 in
  let started := UnicornCPU.uc_emu_start demo_engine (run_start "UNICORN RUN" m)
                   (tagged_pc demo_engine (UnicornCPU.uc m)) 0 0 0 in
  started.1 = UnicornCPU.UC_ERR_OK
  ∧ tagged_pc demo_engine (UnicornCPU.uc m) = 0x81000001
  ∧ UnicornCPU.did_break m = true
  ∧ UnicornCPU.did_break (run_start "UNICORN RUN" m) = false
  ∧ fst <$> UnicornCPU.run demo_engine m = Some 1
  ∧ 1 = UnicornCPU.at_halt (UnicornCPU.halt_instruction_pc started.2)
          (tagged_pc demo_engine (UnicornCPU.uc started.2)).
Proof.
  pose (m := demo_cpu 0x81000000 16 0x81000004).
  pose (m' := end_machine (UnicornCPU.run demo_engine m) m).
  destruct (run_and_step_contract demo_engine m 1 m') as [Hrun _].
  destruct Hrun as (_ & Hbreak & _ & _ & Hok); [vm_compute; reflexivity|].
  destruct Hok as (Hr & _); [reflexivity|].
  split; [reflexivity|]. split; [reflexivity|]. split; [reflexivity|].
  split; [exact Hbreak|]. split; [reflexivity|]. exact Hr.
Defined.

(** X16.  [execute_instructions_no_check] starts the engine for [num]
    instructions at the tagged program counter with no end address short
    of [1 << 63], and unlike [run] hands the machine over with its flags
    as they are.  It returns -1 when the engine reports an error and 0
    otherwise, never the halt test. *)
Theorem execute_instructions_no_check_contract {E : Type} (engine : UnicornCPU.Engine E)
    (num : Z) (m : UnicornCPU.Machine E) (r : Z) (m' : UnicornCPU.Machine E) :
  UnicornCPU.execute_instructions_no_check engine num m = Some (r, m') →
  let m0 := execute_start m in
  let started :=
    UnicornCPU.uc_emu_start engine m0 (tagged_pc engine (UnicornCPU.uc m)) (2 ^ 63) 0 num in
  UnicornCPU.uc m0 = UnicornCPU.uc m
  ∧ UnicornCPU.did_break m0 = UnicornCPU.did_break m
  ∧ UnicornCPU.svc_called m0 = UnicornCPU.svc_called m
  ∧ (started.1 ≠ UnicornCPU.UC_ERR_OK → r = -1)
  ∧ (started.1 = UnicornCPU.UC_ERR_OK →
     r = 0
     ∧ UnicornCPU.uc m' = UnicornCPU.uc started.2
     ∧ UnicornCPU.did_break m' = UnicornCPU.did_break started.2
     ∧ UnicornCPU.svc_called m' = UnicornCPU.svc_called started.2).
Proof.
  cbv zeta. unfold tagged_pc, execute_start. unicorn_unfold. unicorn_cases;
    intros H; injection H as <- <-; simpl; unicorn_tests;
    repeat split; try reflexivity; congruence.
Qed.

Lemma execute_instructions_no_check_contract_witness :
  let m := demo_cpu 0x81000000 0 0x81000004 in
  let started := UnicornCPU.uc_emu_start demo_engine (execute_start m)
                   (tagged_pc demo_engine (UnicornCPU.uc m)) (2 ^ 63) 0 3 in
  started.1 ≠ UnicornCPU.UC_ERR_OK
  ∧ fst <$> UnicornCPU.execute_instructions_no_check demo_engine 3 m = Some (-1)
  ∧ UnicornCPU.did_break (execute_start m) = UnicornCPU.did_break m.
Proof.
  pose (m := demo_cpu 0x81000000 0 0x81000004).
  pose (m' := end_machine (UnicornCPU.execute_instructions_no_check demo_engine 3 m) m).
  destruct (execute_instructions_no_check_contract demo_engine 3 m (-1) m')
    as (_ & Hbreak & _ & _ & _); [vm_compute; reflexivity|].
  split; [discriminate|]. split; [reflexivity|]. exact Hbreak.
Defined.

(** X17.  [set_float_reg (idx, val)] reads the double register holding
    single [idx], replaces the half [idx % 2] and writes it back: after it
    [get_float_reg (idx)] answers [val] and every other single answers
    what it answered before, on an engine whose double registers give
    back what was written and keep apart. *)
Theorem set_float_reg_then_get {E : Type} (engine : UnicornCPU.Engine E)
    (idx val : Z) (m m' : UnicornCPU.Machine E) :
  (∀ e i x,
     UnicornCPU.uc_reg_read_double engine
       (UnicornCPU.uc_reg_write_double engine e (UnicornCPU.UC_ARM_REG_D0_plus i) x).2
       (UnicornCPU.UC_ARM_REG_D0_plus i) = (UnicornCPU.UC_ERR_OK, x)) →
  (∀ e i j x, i ≠ j →
     UnicornCPU.uc_reg_read_double engine
       (UnicornCPU.uc_reg_write_double engine e (UnicornCPU.UC_ARM_REG_D0_plus i) x).2
       (UnicornCPU.UC_ARM_REG_D0_plus j)
     = UnicornCPU.uc_reg_read_double engine e (UnicornCPU.UC_ARM_REG_D0_plus j)) →
  0 ≤ idx →
  UnicornCPU.set_float_reg engine idx val m = Some (tt, m') →
  ∀ j before m1,
    0 ≤ j →
    UnicornCPU.get_float_reg engine j m = Some (before, m1) →
    fst <$> UnicornCPU.get_float_reg engine j m' =
      Some (if decide (j = idx) then val else before).
Proof.
  intros Hback Hapart Hidx Hset j before m1 Hj Hget.
  revert Hset Hget. unicorn_unfold.
  destruct ((UnicornCPU.uc_reg_read_double engine (UnicornCPU.uc m)
               (UnicornCPU.UC_ARM_REG_D0_plus (idx `div` 2))).1
            =? UnicornCPU.UC_ERR_OK) eqn:Hread; [|discriminate]. simpl.
  destruct ((UnicornCPU.uc_reg_write_double engine (UnicornCPU.uc m)
               (UnicornCPU.UC_ARM_REG_D0_plus (idx `div` 2)) _).1
            =? UnicornCPU.UC_ERR_OK) eqn:Hwrite; [|discriminate]. simpl.
  intros Hset. injection Hset as <-. simpl.
  destruct (decide (j `div` 2 = idx `div` 2)) as [Hsame | Hother].
  - rewrite Hsame, Hread. simpl. intros Hget. injection Hget as <- _.
    rewrite Hback. simpl.
    pose proof (Z.div_mod j 2 ltac:(lia)) as Hdj.
    pose proof (Z.div_mod idx 2 ltac:(lia)) as Hdi.
    pose proof (Z.mod_pos_bound j 2 ltac:(lia)) as Hmj.
    pose proof (Z.mod_pos_bound idx 2 ltac:(lia)) as Hmi.
    destruct (decide (j = idx)) as [-> | Hne].
    + by destruct (idx `mod` 2 =? 0).
    + destruct (j `mod` 2 =? 0) eqn:Hj0, (idx `mod` 2 =? 0) eqn:Hi0; simpl;
        try reflexivity; exfalso; lia.
  - rewrite Hapart by congruence.
    destruct ((UnicornCPU.uc_reg_read_double engine (UnicornCPU.uc m)
                 (UnicornCPU.UC_ARM_REG_D0_plus (j `div` 2))).1
              =? UnicornCPU.UC_ERR_OK); [|discriminate]. simpl.
    intros Hget. injection Hget as <- _.
    destruct (decide (j = idx)) as [-> | _]; [by destruct Hother|done].
Qed.

Lemma set_float_reg_then_get_witness :
  let m := demo_cpu 0 0 0 in
  let m' := end_machine (UnicornCPU.set_float_reg demo_engine 7 77 m) m in
  fst <$> UnicornCPU.get_float_reg demo_engine 6 m = Some 30
  ∧ fst <$> UnicornCPU.get_float_reg demo_engine 6 m' =
      Some (if decide (6 = 7) then 77 else 30).
Proof.
  split; [reflexivity|].
  apply (set_float_reg_then_get demo_engine 7 77 (demo_cpu 0 0 0) _ )
    with (m1 := end_machine (UnicornCPU.get_float_reg demo_engine 6 (demo_cpu 0 0 0))
                  (demo_cpu 0 0 0)).
  - intros e i x. simpl. by rewrite Z.eqb_refl.
  - intros e i j x Hne. simpl. apply Z.eqb_neq in Hne. rewrite Z.eqb_sym in Hne.
    by rewrite Hne.
  - lia.
  - vm_compute; reflexivity.
  - lia.
  - vm_compute; reflexivity.
Defined.
